(** * Session coordinator of the Sigle web client

    A shallow embedding of [sigle/src/modules/auth/NewAuthContext.tsx]: the
    React context provider [AuthProvider], which keeps the authentication
    state of the application and offers the two commands [loginWithCeramic]
    and [logout].

    The provider is glue around four collaborators that are not part of the
    repository: the wallet connector (wagmi), the decentralized session
    library (did-session), the backend session exchange (next-auth) and the
    browser ([localStorage], [window.location]).  Their answers are taken as
    parameters (record [Env]); what the provider does with them is
    translated from the source, statement by statement.

    An [async] function is modelled as a computation in a monad that threads
    the browser state, records every effect in a trace, and stops at the
    first rejected [await] (none of the awaits of the source sits in a
    [try]). *)

From stdpp Require Import base option strings list gmap fin_maps.

(** ** Data *)

(** A JavaScript [Error] value, as thrown by a collaborator. *)
Inductive JsError : Type :=
| Error (message : string).

(** What the provider observes of a [DIDSession] handle: the method
    [serialize()] and the getters [hasSession] and [isExpired]. *)
Record DIDSession : Type := {
  serialize : string;
  hasSession : bool;
  isExpired : bool
}.

(** The wallet provider returned by wagmi's [useProvider()]: an opaque
    reference. *)
Inductive Provider : Type :=
| ProviderRef (id : nat).

(** [new EthereumAuthProvider(provider, address)]. *)
Record EthereumAuthProvider : Type := {
  ap_provider : Provider;
  ap_address : string
}.

(** The options object handed to [DIDSession.authorize]. *)
Record AuthorizeOpts : Type := {
  resources : list string;
  nonce : string;
  domain : string
}.

(** [interface AuthUser { address: string }] *)
Record AuthUser : Type := {
  address : string
}.

(** The argument type of [useState] in [AuthProvider]. *)
Record AuthState : Type := {
  isLoading : bool;
  isAuthenticated : bool;
  user : option AuthUser;
  didSession : option DIDSession
}.

(** [status] of wagmi's [useAccount()]; the provider only asks whether it
    is ['connected']. *)
Inductive Status : Type :=
| connecting
| connected
| disconnected.

(** ** The collaborators *)

(** The answers of the outside world during one run of a command.  Each
    awaited call either resolves ([inr]) or rejects ([inl]). *)
Record Env : Type := {
  DIDSession_fromSession : string -> JsError + DIDSession;
  getCsrfToken : JsError + string;
  DIDSession_authorize :
    EthereumAuthProvider -> AuthorizeOpts -> JsError + DIDSession;
  nextAuthSignOut : JsError + ();
  location_protocol : string;
  location_host : string
}.

(** What persists between two commands: the browser's [localStorage], the
    React state cell of [AuthProvider], and the wallet connector's status. *)
Record World : Type := {
  localStorage : gmap string string;
  state : AuthState;
  status : Status
}.

(** Every effect a command performs, in order, with the answer it got. *)
Inductive Event : Type :=
| EvGetItem (key : string) (r : option string)
| EvSetItem (key value : string)
| EvFromSession (s : string) (r : JsError + DIDSession)
| EvGetCsrfToken (r : JsError + string)
| EvAuthorize (ap : EthereumAuthProvider) (opts : AuthorizeOpts)
    (r : JsError + DIDSession)
| EvWagmiDisconnect
| EvSignOut (r : JsError + ())
| EvSetState (s : AuthState).

(** ** The monad of [async] functions *)

Record Run (A : Type) : Type := mkRun {
  trace : list Event;
  final : World;
  outcome : JsError + A
}.
Arguments mkRun {A} _ _ _.
Arguments trace {A} _.
Arguments final {A} _.
Arguments outcome {A} _.

Definition M (A : Type) : Type := World -> Run A.

#[global] Instance M_ret : MRet M :=
  fun A (a : A) w => mkRun [] w (inr a).

(** [await m] followed by the rest of the function body: a rejection ends
    the body there. *)
#[global] Instance M_bind : MBind M :=
  fun A B (k : A -> M B) (m : M A) w =>
    match m w with
    | mkRun tr w1 (inl e) => mkRun tr w1 (inl e)
    | mkRun tr w1 (inr a) =>
        match k a w1 with
        | mkRun tr' w2 o => mkRun (tr ++ tr') w2 o
        end
    end.

(** An external call: one event, the world it leaves, its answer. *)
Definition perform {A : Type} (ev : Event) (w' : World)
    (r : JsError + A) : Run A :=
  mkRun [ev] w' r.

Definition with_localStorage (ls : gmap string string) (w : World) : World :=
  {| localStorage := ls; state := state w; status := status w |}.

Definition with_state (s : AuthState) (w : World) : World :=
  {| localStorage := localStorage w; state := s; status := status w |}.

Definition with_status (c : Status) (w : World) : World :=
  {| localStorage := localStorage w; state := state w; status := c |}.

(** A call whose promise nobody awaits: its effects happen, its rejection
    is dropped. *)
Definition detach (m : M ()) : M () :=
  fun w =>
    let r := m w in
    mkRun (trace r) (final r) (inr ()).

(** JavaScript truthiness of a string: only the empty string is falsy. *)
Definition truthy (s : string) : bool :=
  negb (String.eqb s "").

Section Coordinator.

Variable E : Env.

(** [localStorage.getItem(key)]: [null] when the key is absent. *)
Definition localStorage_getItem (key : string) : M (option string) :=
  fun w =>
    let r := localStorage w !! key in
    perform (EvGetItem key r) w (inr r).

(** [localStorage.setItem(key, value)] *)
Definition localStorage_setItem (key value : string) : M () :=
  fun w =>
    perform (EvSetItem key value)
      (with_localStorage (<[key := value]> (localStorage w)) w) (inr ()).

(** [await DIDSession.fromSession(s)] *)
Definition fromSession (s : string) : M DIDSession :=
  fun w =>
    let r := DIDSession_fromSession E s in
    perform (EvFromSession s r) w r.

(** [await getCsrfToken()] *)
Definition csrfToken : M string :=
  fun w =>
    let r := getCsrfToken E in
    perform (EvGetCsrfToken r) w r.

(** [await DIDSession.authorize(authProvider, opts)] *)
Definition authorize (authProvider : EthereumAuthProvider)
    (opts : AuthorizeOpts) : M DIDSession :=
  fun w =>
    let r := DIDSession_authorize E authProvider opts in
    perform (EvAuthorize authProvider opts r) w r.

(** [wagmiDisconnect()]: the wallet connector goes to [disconnected]. *)
Definition wagmiDisconnect : M () :=
  fun w => perform EvWagmiDisconnect (with_status disconnected w) (inr ()).

(** [await nextAuthSignOut()] *)
Definition signOut : M () :=
  fun w =>
    let r := nextAuthSignOut E in
    perform (EvSignOut r) w r.

(** [setState(s)]: the state record is replaced as a whole. *)
Definition setState (s : AuthState) : M () :=
  fun w => perform (EvSetState s) (with_state s w) (inr ()).

(** The state both [loginWithCeramic] (guard not met) and [logout]
    commit. *)
Definition unauthenticated : AuthState :=
  {| isLoading := false;
     isAuthenticated := false;
     user := None;
     didSession := None |}.

(** The body of the second [if] of [loadCeramicSession]: fetch the nonce
    (the source casts the answer to [string]), build the domain from
    [window.location], authorize, store the serialized handle. *)
Definition authorizeSession (authProvider : EthereumAuthProvider)
    : M DIDSession :=
  nonce ← csrfToken;
  let domain := location_protocol E +:+ "//" +:+ location_host E in
  session ← authorize authProvider
    {| resources := ["ceramic://*"]; nonce := nonce; domain := domain |};
  localStorage_setItem "didsession" (serialize session);;
  mret session.

(** [[
    const loadCeramicSession = async (authProvider) => {
      const sessionStr = localStorage.getItem('didsession');
      let session: DIDSession | undefined;
      if (sessionStr) {
        session = await DIDSession.fromSession(sessionStr);
      }
      if (!session || (session.hasSession && session.isExpired)) {
        const nonce = (await getCsrfToken()) as string;
        const domain =
          `${window.location.protocol}//${window.location.host}`;
        session = await DIDSession.authorize(authProvider, {
          resources: [`ceramic://*`], nonce, domain });
        localStorage.setItem('didsession', session.serialize());
      }
      return session;
    };
    ]] *)
Definition loadCeramicSession (authProvider : EthereumAuthProvider)
    : M DIDSession :=
  sessionStr ← localStorage_getItem "didsession";
  session ←
    match sessionStr with
    | Some str =>
        if truthy str then s ← fromSession str; mret (Some s)
        else mret None
    | None => mret None
    end;
  match session with
  | None => authorizeSession authProvider
  | Some s =>
      if hasSession s && isExpired s then authorizeSession authProvider
      else mret s
  end.

(** [[
    const loginWithCeramic = useCallback(async () => {
      if (!provider || !address) {
        setState({ isLoading: false, isAuthenticated: false,
                   user: undefined, didSession: undefined });
        return;
      }
      const authProvider = new EthereumAuthProvider(provider, address);
      const session = await loadCeramicSession(authProvider);
      setState({ isLoading: false, isAuthenticated: true,
                 user: { address }, didSession: session });
    }, []);
    ]]
    [provider] and [address] are the values the closure holds
    ([useProvider()] and [useAccount().address], as [useCallback] with an
    empty dependency list captured them); an object is truthy, a string is
    truthy unless empty. *)
Definition loginWithCeramic (provider : option Provider)
    (addr : option string) : M () :=
  match provider, addr with
  | Some p, Some a =>
      if truthy a then
        let authProvider := {| ap_provider := p; ap_address := a |} in
        session ← loadCeramicSession authProvider;
        setState {| isLoading := false;
                    isAuthenticated := true;
                    user := Some {| address := a |};
                    didSession := Some session |}
      else setState unauthenticated
  | _, _ => setState unauthenticated
  end.

(** [[
    const logout = useCallback(async () => {
      wagmiDisconnect();
      // TODO clear ceramic session
      await nextAuthSignOut();
      setState({ isLoading: false, isAuthenticated: false,
                 user: undefined, didSession: undefined });
    }, []);
    ]] *)
Definition logout : M () :=
  wagmiDisconnect;;
  signOut;;
  setState unauthenticated.

(** [[
    useEffect(() => {
      if (status === 'connected') { loginWithCeramic(); }
    }, [status]);
    ]]
    The effect runs when the wallet connector reports a new status; the
    promise of [loginWithCeramic] is not awaited. *)
Definition statusEffect (provider : option Provider)
    (addr : option string) : M () :=
  fun w =>
    match status w with
    | connected => detach (loginWithCeramic provider addr) w
    | _ => (mret () : M ()) w
    end.

End Coordinator.

(** The argument of [useState]:
    [{ isLoading: true, isAuthenticated: false }]. *)
Definition initialState : AuthState :=
  {| isLoading := true;
     isAuthenticated := false;
     user := None;
     didSession := None |}.

(** The world when [AuthProvider] is mounted: whatever the browser has
    stored and whatever the wallet connector reports. *)
Definition mount (ls : gmap string string) (c : Status) : World :=
  {| localStorage := ls; state := initialState; status := c |}.

(** ** Transitions *)

(** What can happen to a mounted provider: a consumer calls one of the two
    commands, or the wallet connector reports a status. *)
Inductive Transition : Type :=
| TLogin (provider : option Provider) (addr : option string)
| TLogout
| TStatus (c : Status) (provider : option Provider) (addr : option string).

Definition command (E : Env) (t : Transition) : M () :=
  match t with
  | TLogin provider addr => loginWithCeramic E provider addr
  | TLogout => logout E
  | TStatus c provider addr =>
      fun w => statusEffect E provider addr (with_status c w)
  end.

(** The world after a transition; a rejected command leaves the world as
    it was when the rejection happened. *)
Definition fire (E : Env) (t : Transition) (w : World) : World :=
  final (command E t w).

(** One transition, with whatever the collaborators answer during it. *)
Definition step (w w' : World) : Prop :=
  exists E t, w' = fire E t w.

(** The worlds a mounted provider can be in. *)
Definition reachable (w : World) : Prop :=
  exists ls c, rtc step (mount ls c) w.

(** ** Reading a trace *)

Definition is_getNonce (ev : Event) : bool :=
  match ev with EvGetCsrfToken _ => true | _ => false end.

Definition is_authorize (ev : Event) : bool :=
  match ev with EvAuthorize _ _ _ => true | _ => false end.

Definition is_fromSession (ev : Event) : bool :=
  match ev with EvFromSession _ _ => true | _ => false end.

Definition is_storage_read (ev : Event) : bool :=
  match ev with EvGetItem _ _ => true | _ => false end.

Definition is_storage_write (ev : Event) : bool :=
  match ev with EvSetItem _ _ => true | _ => false end.

Definition is_commit (ev : Event) : bool :=
  match ev with EvSetState _ => true | _ => false end.

(** Number of events of a kind in a trace. *)
Definition calls (kind : Event -> bool) (tr : list Event) : nat :=
  length (filter (fun ev => kind ev = true) tr).

(** The worlds a mounted provider can be in while no transition has
    committed a state yet. *)
Inductive uncommitted : World -> Prop :=
| uncommitted_mount ls c : uncommitted (mount ls c)
| uncommitted_fire E t w :
    uncommitted w ->
    calls is_commit (trace (command E t w)) = 0 ->
    uncommitted (fire E t w).

(** ** Vocabulary of the statements *)

(** The state the success path of [loginWithCeramic] commits. *)
Definition authenticated (a : string) (session : DIDSession) : AuthState :=
  {| isLoading := false;
     isAuthenticated := true;
     user := Some {| address := a |};
     didSession := Some session |}.

(** The challenge [loadCeramicSession] builds from a nonce. *)
Definition challenge (E : Env) (n : string) : AuthorizeOpts :=
  {| resources := ["ceramic://*"];
     nonce := n;
     domain := location_protocol E +:+ "//" +:+ location_host E |}.

(** The two shapes of a committed state. *)
Definition committed (s : AuthState) : Prop :=
  s = unauthenticated \/ exists a h, s = authenticated a h.

(** What [loadCeramicSession] does before it decides whether to authorize:
    it reads the record and, when the record is a non-empty string,
    deserializes it. *)
Definition read_events (E : Env) (w : World) : list Event :=
  match localStorage w !! "didsession" with
  | Some str =>
      if truthy str then
        [EvGetItem "didsession" (Some str);
         EvFromSession str (DIDSession_fromSession E str)]
      else [EvGetItem "didsession" (Some str)]
  | None => [EvGetItem "didsession" None]
  end.

(** No record is stored under ["didsession"], or the stored record
    deserializes to a handle that is present and expired. *)
Definition no_usable_record (E : Env) (w : World) : Prop :=
  localStorage w !! "didsession" = None \/
  exists str h,
    localStorage w !! "didsession" = Some str /\
    DIDSession_fromSession E str = inr h /\
    hasSession h = true /\ isExpired h = true.

(** The error of a rejected deserialization, nonce fetch or authorization
    call. *)
Definition rejection (ev : Event) : option JsError :=
  match ev with
  | EvFromSession _ (inl e) => Some e
  | EvGetCsrfToken (inl e) => Some e
  | EvAuthorize _ _ (inl e) => Some e
  | _ => None
  end.

(** ** Concrete collaborators

    A small outside world on which the commands can be run. *)
Module Examples.

Definition freshSession : DIDSession :=
  {| serialize := "fresh-session"; hasSession := true; isExpired := false |}.

Definition storedSession : DIDSession :=
  {| serialize := "stored-session"; hasSession := true; isExpired := false |}.

Definition expiredSession : DIDSession :=
  {| serialize := "expired-session"; hasSession := true; isExpired := true |}.

Definition parse (s : string) : JsError + DIDSession :=
  if String.eqb s "fresh-session" then inr freshSession
  else if String.eqb s "stored-session" then inr storedSession
  else if String.eqb s "expired-session" then inr expiredSession
  else inl (Error "SyntaxError: Unexpected token").

(** Every collaborator answers. *)
Definition online : Env :=
  {| DIDSession_fromSession := parse;
     getCsrfToken := inr "csrf-1";
     DIDSession_authorize := fun _ _ => inr freshSession;
     nextAuthSignOut := inr ();
     location_protocol := "https:";
     location_host := "app.sigle.io" |}.

(** The backend cannot be reached: nonce fetch and sign-out reject. *)
Definition backend_down : Env :=
  {| DIDSession_fromSession := parse;
     getCsrfToken := inl (Error "Failed to fetch");
     DIDSession_authorize := fun _ _ => inr freshSession;
     nextAuthSignOut := inl (Error "Failed to fetch");
     location_protocol := "https:";
     location_host := "app.sigle.io" |}.

(** The user refuses to sign the message in the wallet. *)
Definition user_rejects : Env :=
  {| DIDSession_fromSession := parse;
     getCsrfToken := inr "csrf-1";
     DIDSession_authorize := fun _ _ => inl (Error "User rejected request");
     nextAuthSignOut := inr ();
     location_protocol := "https:";
     location_host := "app.sigle.io" |}.

Definition metamask : Provider := ProviderRef 1.

Definition alice : string := "0xABC".

Definition empty_browser : World := mount ∅ connected.

Definition returning_browser : World :=
  mount {[ "didsession" := "stored-session" ]} connected.

Definition expired_browser : World :=
  mount {[ "didsession" := "expired-session" ]} connected.

Definition corrupt_browser : World :=
  mount {[ "didsession" := "{not base64" ]} connected.

(** A browser in which alice is logged in. *)
Definition logged_in : World :=
  fire online (TLogin (Some metamask) (Some alice)) returning_browser.

End Examples.

(** ** Consumers of the context

    [modules/auth/Protected.tsx] and [pages/login.page.tsx] read the state
    record and call the two commands through [useNewAuth()]. *)

(** What a guarded component puts on the screen. *)
Inductive Rendered : Type :=
| FullScreenLoading
| Redirect (path : string)
| Children.

(** [[
    export const Protected = ({ children }: Props) => {
      const { isAuthenticated, isLoading } = useNewAuth();
      if (isLoading) { return <FullScreenLoading />; }
      if (!isAuthenticated) { router.push('/login'); return null; }
      return children;
    };
    ]] *)
Definition Protected (s : AuthState) : Rendered :=
  if isLoading s then FullScreenLoading
  else if negb (isAuthenticated s) then Redirect "/login"
  else Children.

(** [type SigningState = 'inactive' | 'active' | 'complete'] *)
Inductive SigningState : Type :=
| inactive
| active
| complete.

(** The local state of the [Login] page, and the error toasts it has
    shown. *)
Record LoginPage : Type := {
  signingState : SigningState;
  toasts : list string
}.

(** [error.message] *)
Definition error_message (e : JsError) : string :=
  match e with Error m => m end.

(** The first effect of the [Login] page:
    [if (isAuthenticated) { router.push(`/`); }]. *)
Definition loginPageEffect (s : AuthState) : option string :=
  if isAuthenticated s then Some "/" else None.

(** What a handler of the page leaves: the page, and the run of the
    commands it called. *)
Record PageRun : Type := {
  page_after : LoginPage;
  page_run : Run ()
}.

(** [[
    const handleSignMessage = async () => {
      setSigningState('active');
      try {
        await loginWithCeramic();
      } catch (error) {
        toast.error(error.message);
      }
      setSigningState('complete');
    };
    ]]
    [login] is the [loginWithCeramic] the context hands out. *)
Definition handleSignMessage (login : M ()) (pg : LoginPage) (w : World)
    : PageRun :=
  let pg1 := {| signingState := active; toasts := toasts pg |} in
  let r := login w in
  let pg2 :=
    match outcome r with
    | inl error =>
        {| signingState := signingState pg1;
           toasts := toasts pg1 ++ [error_message error] |}
    | inr _ => pg1
    end in
  {| page_after := {| signingState := complete; toasts := toasts pg2 |};
     page_run := mkRun (trace r) (final r) (inr ()) |}.

(** [[
    const handleLogout = () => {
      disconnect();
      logout();
    };
    ]]
    [disconnect] is wagmi's, as in the provider; the promise of [logout] is
    not awaited. *)
Definition handleLogout (logout : M ()) : M () :=
  wagmiDisconnect;;
  detach logout.

(** The variant of the second step of the page:
    [user && signingState !== 'complete' ? 'active' : signingState]. *)
Definition is_complete (st : SigningState) : bool :=
  match st with complete => true | _ => false end.

Definition defined {A : Type} (o : option A) : bool :=
  match o with Some _ => true | None => false end.

Definition step2Variant (u : option AuthUser) (st : SigningState)
    : SigningState :=
  if defined u && negb (is_complete st) then active else st.


(** A record whose handle says [hasSession = false] although it has
    expired, and a session library that reads it back. *)
Module Edge.

Definition hollowSession : DIDSession :=
  {| serialize := "hollow-session"; hasSession := false; isExpired := true |}.

Definition library : Env :=
  {| DIDSession_fromSession :=
       fun s =>
         if String.eqb s "hollow-session" then inr hollowSession
         else Examples.parse s;
     getCsrfToken := inr "csrf-2";
     DIDSession_authorize := fun _ _ => inr Examples.freshSession;
     nextAuthSignOut := inr ();
     location_protocol := "https:";
     location_host := "app.sigle.io" |}.

Definition hollow_browser : World :=
  mount {[ "didsession" := "hollow-session" ]} connected.

Definition blank_browser : World :=
  mount {[ "didsession" := "" ]} connected.

Definition bob : string := "0xB0B".

End Edge.

(** ** The legacy provider

    [sigle/src/modules/auth/AuthContext.tsx]: the provider for users who
    sign in with a Stacks wallet.  Its collaborators are the session
    library ([userSession]), the Stacks node API ([fetch]) and the
    browser. *)
Module Legacy.

(** [userData.profile.stxAddress] *)
Record StxAddress : Type := {
  mainnet : option string
}.

(** [UserDataWithUsername]: the fields the provider reads, and the rest.
    [stxAddress] is [None] when [profile] has no such property. *)
Record UserData : Type := {
  username : option string;
  stxAddress : option StxAddress;
  rest : string
}.

(** The argument type of [useState]. *)
Record State : Type := {
  loggingIn : bool;
  isLegacy : option bool;
  user : option UserData
}.

(** The body of the answer of the names endpoint: [namesJson.names]. *)
Record NamesJson : Type := {
  names : option (list string)
}.

Record Env : Type := {
  isUserSignedIn : bool;
  isSignInPending : bool;
  handlePendingSignIn : JsError + ();
  loadUserData : JsError + UserData;
  fetchNames : string -> JsError + NamesJson
}.

Record World : Type := {
  localStorage : gmap string string;
  state : State
}.

Inductive Event : Type :=
| EvLoadUserData (r : JsError + UserData)
| EvFetch (url : string) (r : JsError + NamesJson)
| EvGetItem (key : string) (r : option string)
| EvRemoveItem (key : string)
| EvHandlePendingSignIn (r : JsError + ())
| EvSignUserOut
| EvConsoleError (e : JsError)
| EvToastError (msg : string)
| EvSetState (s : State).

Record Run (A : Type) : Type := mkRun {
  trace : list Event;
  final : World;
  outcome : JsError + A
}.
Arguments mkRun {A} _ _ _.
Arguments trace {A} _.
Arguments final {A} _.
Arguments outcome {A} _.

Definition M (A : Type) : Type := World -> Run A.

#[global] Instance M_ret : MRet M :=
  fun A (a : A) w => mkRun [] w (inr a).

#[global] Instance M_bind : MBind M :=
  fun A B (k : A -> M B) (m : M A) w =>
    match m w with
    | mkRun tr w1 (inl e) => mkRun tr w1 (inl e)
    | mkRun tr w1 (inr a) =>
        match k a w1 with
        | mkRun tr' w2 o => mkRun (tr ++ tr') w2 o
        end
    end.

(** [throw e] *)
Definition throw {A : Type} (e : JsError) : M A :=
  fun w => mkRun [] w (inl e).

(** [try { m } catch (e) { handler e }] *)
Definition try_catch {A : Type} (m : M A) (handler : JsError -> M A) : M A :=
  fun w =>
    match m w with
    | mkRun tr w1 (inl e) =>
        match handler e w1 with
        | mkRun tr' w2 o => mkRun (tr ++ tr') w2 o
        end
    | mkRun tr w1 (inr a) => mkRun tr w1 (inr a)
    end.

(** A call whose promise nobody awaits. *)
Definition detach (m : M ()) : M () :=
  fun w =>
    match m w with
    | mkRun tr w1 _ => mkRun tr w1 (inr ())
    end.

Definition with_localStorage (ls : gmap string string) (w : World) : World :=
  {| localStorage := ls; state := state w |}.

Definition with_state (s : State) (w : World) : World :=
  {| localStorage := localStorage w; state := s |}.

Definition with_username (name : option string) (u : UserData) : UserData :=
  {| username := name; stxAddress := stxAddress u; rest := rest u |}.

(** Truthiness of [string | undefined]. *)
Definition truthy_opt (o : option string) : bool :=
  match o with
  | Some s => truthy s
  | None => false
  end.

(** [`${address}`] *)
Definition interpolate (o : option string) : string :=
  match o with
  | Some s => s
  | None => "undefined"
  end.

Definition names_url (address : option string) : string :=
  "https://stacks-node-api.stacks.co/v1/addresses/stacks/"
    +:+ interpolate address.

Definition username_key (address : option string) : string :=
  "sigle-username-" +:+ interpolate address.

Section Provider.

Variable E : Env.

(** [userSession.loadUserData()] *)
Definition userSession_loadUserData : M UserData :=
  fun w =>
    let r := loadUserData E in
    mkRun [EvLoadUserData r] w r.

(** [await fetch(url)] followed by [await namesResponse.json()] *)
Definition fetch_json (url : string) : M NamesJson :=
  fun w =>
    let r := fetchNames E url in
    mkRun [EvFetch url r] w r.

Definition localStorage_getItem (key : string) : M (option string) :=
  fun w =>
    let r := localStorage w !! key in
    mkRun [EvGetItem key r] w (inr r).

Definition localStorage_removeItem (key : string) : M () :=
  fun w =>
    mkRun [EvRemoveItem key]
      (with_localStorage (delete key (localStorage w)) w) (inr ()).

Definition userSession_handlePendingSignIn : M () :=
  fun w =>
    let r := handlePendingSignIn E in
    mkRun [EvHandlePendingSignIn r] w r.

Definition userSession_signUserOut : M () :=
  fun w => mkRun [EvSignUserOut] w (inr ()).

Definition console_error (e : JsError) : M () :=
  fun w => mkRun [EvConsoleError e] w (inr ()).

Definition toast_error (msg : string) : M () :=
  fun w => mkRun [EvToastError msg] w (inr ()).

Definition setState (s : State) : M () :=
  fun w => mkRun [EvSetState s] (with_state s w) (inr ()).

(** [userData.profile.stxAddress.mainnet]: reading [mainnet] of a missing
    [stxAddress] throws. *)
Definition read_mainnet (userData : UserData) : M (option string) :=
  match stxAddress userData with
  | Some a => mret (mainnet a)
  | None =>
      throw
        (Error "Cannot read properties of undefined (reading 'mainnet')")
  end.

(** [namesJson.names.length] and [namesJson.names[0]] in
    [[
    if ((namesJson.names.length || 0) > 0) {
      userData.username = namesJson.names[0];
    }
    ]] *)
Definition first_name (userData : UserData) (namesJson : NamesJson)
    : M UserData :=
  match names namesJson with
  | None =>
      throw (Error "Cannot read properties of undefined (reading 'length')")
  | Some [] => mret userData
  | Some (name :: _) => mret (with_username (Some name) userData)
  end.

(** [[
    const handleAuthSignIn = async () => {
      const userData = userSession.loadUserData() as UserDataWithUsername;
      const address = userData.profile.stxAddress.mainnet;
      if (userData.username === undefined && address) {
        try {
          const namesResponse = await fetch(
            `https://stacks-node-api.stacks.co/v1/addresses/stacks/${address}`
          );
          const namesJson = await namesResponse.json();
          if ((namesJson.names.length || 0) > 0) {
            userData.username = namesJson.names[0];
          }
        } catch (e) {}
      }
      const username = localStorage.getItem(`sigle-username-${address}`);
      if (username) {
        if (username === userData.username) {
          localStorage.removeItem(`sigle-username-${address}`);
        } else {
          userData.username = username;
        }
      }
      setState({
        loggingIn: false,
        user: userData,
        isLegacy: address === undefined,
      });
    };
    ]]
    The object [userData] is updated in place; here each update yields the
    next value of it. *)
Definition handleAuthSignIn : M () :=
  userData ← userSession_loadUserData;
  address ← read_mainnet userData;
  userData ←
    match username userData with
    | None =>
        if truthy_opt address then
          try_catch
            (namesJson ← fetch_json (names_url address);
             first_name userData namesJson)
            (fun _ => mret userData)
        else mret userData
    | Some _ => mret userData
    end;
  stored ← localStorage_getItem (username_key address);
  userData ←
    match stored with
    | Some name =>
        if truthy name then
          if bool_decide (Some name = username userData) then
            localStorage_removeItem (username_key address);;
            mret userData
          else mret (with_username (Some name) userData)
        else mret userData
    | None => mret userData
    end;
  setState
    {| loggingIn := false;
       user := Some userData;
       isLegacy := Some (negb (defined address)) |}.

(** The state [{ loggingIn: false }]. *)
Definition loggedOut : State :=
  {| loggingIn := false; isLegacy := None; user := None |}.

(** [[
    useEffect(() => {
      if (userSession.isUserSignedIn()) {
        handleAuthSignIn();
      } else if (userSession.isSignInPending()) {
        userSession
          .handlePendingSignIn()
          .then(handleAuthSignIn)
          .catch((error: Error) => {
            setState({ loggingIn: false });
            console.error(error);
            toast.error(error.message);
          });
      } else if (state.loggingIn) {
        setState({ loggingIn: false });
      }
    }, []);
    ]] *)
Definition mountEffect : M () :=
  if isUserSignedIn E then detach handleAuthSignIn
  else if isSignInPending E then
    try_catch
      (userSession_handlePendingSignIn;; handleAuthSignIn)
      (fun error =>
         setState loggedOut;;
         console_error error;;
         toast_error (error_message error))
  else
    fun w =>
      if loggingIn (state w) then setState loggedOut w
      else (mret () : M ()) w.

(** [[
    const handleSetUsername = useCallback((username: string) => {
      const userData = userSession.loadUserData();
      setState({ loggingIn: false, user: { ...userData, username } });
    }, []);
    ]] *)
Definition handleSetUsername (name : string) : M () :=
  userData ← userSession_loadUserData;
  setState
    {| loggingIn := false;
       isLegacy := None;
       user := Some (with_username (Some name) userData) |}.

(** [[
    const handleLogout = useCallback(() => {
      userSession.signUserOut();
      setState({ loggingIn: false, user: undefined });
    }, []);
    ]] *)
Definition handleLogout : M () :=
  userSession_signUserOut;;
  setState loggedOut.

End Provider.

(** [useState({ loggingIn: true })] *)
Definition initialState : State :=
  {| loggingIn := true; isLegacy := None; user := None |}.

Definition mount (ls : gmap string string) : World :=
  {| localStorage := ls; state := initialState |}.

(** What happens to a mounted legacy provider: its mount effect, the
    [onFinish] of the connect dialog, and the two commands it hands out. *)
Inductive Transition : Type :=
| TMount
| TFinish
| TSetUsername (name : string)
| TLogout.

Definition command (E : Env) (t : Transition) : M () :=
  match t with
  | TMount => mountEffect E
  | TFinish => handleAuthSignIn E
  | TSetUsername name => handleSetUsername E name
  | TLogout => handleLogout
  end.

Definition fire (E : Env) (t : Transition) (w : World) : World :=
  final (command E t w).

Definition step (w w' : World) : Prop :=
  exists E t, w' = fire E t w.

Definition reachable (w : World) : Prop :=
  exists ls, rtc step (mount ls) w.

(** The value of [userData.username] when the lookup of the stored name
    starts: the wallet's, or else the first name the API returned. *)
Definition resolved_username (E : Env) (userData : UserData)
    (address : option string) : option string :=
  match username userData with
  | Some name => Some name
  | None =>
      if truthy_opt address then
        match fetchNames E (names_url address) with
        | inr {| names := Some (name :: _) |} => Some name
        | _ => None
        end
      else None
  end.

Definition is_fetch (ev : Event) : bool :=
  match ev with EvFetch _ _ => true | _ => false end.


Definition calls (kind : Event -> bool) (tr : list Event) : nat :=
  length (filter (fun ev => kind ev = true) tr).

(** A user with a name registered at the API, and one the wallet knows
    nothing about. *)
Definition carol : UserData :=
  {| username := None;
     stxAddress := Some {| mainnet := Some "SP3CAROL" |};
     rest := "did:btc-addr:1Carol" |}.

Definition api_up : Env :=
  {| isUserSignedIn := true;
     isSignInPending := false;
     handlePendingSignIn := inr ();
     loadUserData := inr carol;
     fetchNames := fun _ => inr {| names := Some ["carol.btc"] |} |}.

Definition api_down : Env :=
  {| isUserSignedIn := false;
     isSignInPending := true;
     handlePendingSignIn := inr ();
     loadUserData := inr carol;
     fetchNames := fun _ => inl (Error "Failed to fetch") |}.

Definition signed_out : Env :=
  {| isUserSignedIn := false;
     isSignInPending := true;
     handlePendingSignIn := inl (Error "Failed to decrypt");
     loadUserData := inl (Error "No user data found");
     fetchNames := fun _ => inl (Error "Failed to fetch") |}.

End Legacy.

(** ** The error handler of the API server

    The handler [buildFastifyServer] installs with
    [fastify.setErrorHandler]. *)
Module Server.

Record FastifyError : Type := {
  err_message : string;
  validation : bool
}.

Record Request : Type := {
  url : string;
  headers : gmap string string;
  req_address : option string;
  body : option string
}.

(** The object the handler sends for an unexpected error. *)
Record ErrorBody : Type := {
  error : string;
  message : string;
  errorId : string
}.

Inductive Payload : Type :=
| TheError (e : FastifyError)
| Body (b : ErrorBody).

(** What the handler does, in order. *)
Inductive Effect : Type :=
| ReplySend (p : Payload)
| ReplyCode (status : nat)
| ScopeSetLevel (level : string)
| ScopeSetTag (key value : string)
| ScopeSetExtraHeaders (h : gmap string string)
| ScopeSetUser (stacksAddress : string)
| ScopeSetExtraBody (b : string)
| CaptureException (e : FastifyError)
| ConsoleError (sentryId : string) (e : FastifyError).

Definition truthy_opt (o : option string) : bool :=
  match o with
  | Some s => truthy s
  | None => false
  end.

(** [[
    fastify.setErrorHandler(async (error, request, reply) => {
      if (reply.statusCode === 429) { reply.send(error); return; }
      if (error.validation) { reply.code(400).send(error); return; }
      Sentry.withScope((scope) => {
        scope.setLevel('error');
        scope.setTag('path', request.url);
        scope.setExtra('headers', request.headers);
        if (request.address) {
          scope.setUser({ stacksAddress: request.address });
        }
        if (request.headers['content-type'] === 'application/json' &&
            request.body) {
          scope.setExtra('body', request.body);
        }
        const sentryId = Sentry.captureException(error);
        console.error(sentryId, error);
        reply.status(500).send({
          error: 'Internal server error',
          message: 'Something went wrong please try again after some time',
          errorId: sentryId,
        });
      });
    });
    ]]
    [statusCode] is [reply.statusCode] when the handler is entered and
    [sentryId] the id [Sentry.captureException] returns. *)
Definition errorHandler (sentryId : string) (e : FastifyError)
    (request : Request) (statusCode : nat) : list Effect :=
  if Nat.eqb statusCode 429 then [ReplySend (TheError e)]
  else if validation e then [ReplyCode 400; ReplySend (TheError e)]
  else
    [ScopeSetLevel "error";
     ScopeSetTag "path" (url request);
     ScopeSetExtraHeaders (headers request)]
    ++ (match req_address request with
        | Some a => if truthy a then [ScopeSetUser a] else []
        | None => []
        end)
    ++ (match headers request !! "content-type", body request with
        | Some ct, Some b =>
            if String.eqb ct "application/json" && truthy b
            then [ScopeSetExtraBody b] else []
        | _, _ => []
        end)
    ++ [CaptureException e;
        ConsoleError sentryId e;
        ReplyCode 500;
        ReplySend
          (Body
             {| error := "Internal server error";
                message :=
                  "Something went wrong please try again after some time";
                errorId := sentryId |})].

(** The status the client sees: the last [reply.code], or the one the
    reply had. *)
Fixpoint final_status (statusCode : nat) (effects : list Effect) : nat :=
  match effects with
  | [] => statusCode
  | ReplyCode n :: rest => final_status n rest
  | _ :: rest => final_status statusCode rest
  end.

Definition is_send (ef : Effect) : bool :=
  match ef with ReplySend _ => true | _ => false end.

Definition is_report (ef : Effect) : bool :=
  match ef with
  | CaptureException _ | ConsoleError _ _ => true
  | _ => false
  end.

Definition count (kind : Effect -> bool) (effects : list Effect) : nat :=
  length (filter (fun ef => kind ef = true) effects).

(** What is sent to the client. *)
Definition sent (effects : list Effect) : list Payload :=
  omap (fun ef => match ef with ReplySend p => Some p | _ => None end)
    effects.

End Server.

(** ** Running a command by hand *)

Ltac unfold_run :=
  cbv beta iota zeta delta
    [loginWithCeramic loadCeramicSession authorizeSession logout
     statusEffect detach localStorage_getItem localStorage_setItem
     fromSession csrfToken authorize wagmiDisconnect signOut setState
     perform mbind M_bind mret M_ret].

(** Case analysis on the innermost answer a run is waiting for. *)
Ltac next_answer :=
  match goal with
  | |- context [match ?x with _ => _ end] =>
      lazymatch x with
      | context [match _ with _ => _ end] => fail
      | _ => destruct x
      end
  end.

Ltac run_cases :=
  unfold_run; repeat (next_answer; cbn [trace final outcome app]).

(** Case analysis that remembers each answer. *)
Ltac next_answer_eqn :=
  match goal with
  | |- context [match ?x with _ => _ end] =>
      lazymatch x with
      | context [match _ with _ => _ end] => fail
      | _ => destruct x eqn:?
      end
  end.

Ltac run_cases_eqn :=
  unfold_run; repeat (next_answer_eqn; cbn [trace final outcome app]).

Ltac split_trace H :=
  repeat (apply elem_of_cons in H as [-> | H]);
  try (apply elem_of_nil in H; destruct H).

(** The [setState] events of a trace, from [H : EvSetState s ∈ tr]. *)
Ltac split_commits H :=
  repeat (apply elem_of_cons in H as [H | H];
          [try discriminate H; injection H as -> |]);
  try (apply elem_of_nil in H; destruct H).

(** The run of [loginWithCeramic] when its guard is not met. *)
Lemma loginWithCeramic_unmet_run E provider addr w :
  provider = None \/ addr = None \/ addr = Some "" ->
  loginWithCeramic E provider addr w =
    mkRun [EvSetState unauthenticated] (with_state unauthenticated w) (inr ()).
Proof.
  intros H. destruct provider as [p|], addr as [[|c a]|]; try reflexivity.
  destruct H as [H | [H | H]]; discriminate H.
Qed.

(** The run of [loginWithCeramic] on a stored record that deserializes to a
    handle that is not both present and expired. *)
Lemma loginWithCeramic_stored_run E p a str h w :
  truthy a = true ->
  localStorage w !! "didsession" = Some str ->
  truthy str = true ->
  DIDSession_fromSession E str = inr h ->
  hasSession h && isExpired h = false ->
  loginWithCeramic E (Some p) (Some a) w =
    mkRun [EvGetItem "didsession" (Some str); EvFromSession str (inr h);
           EvSetState (authenticated a h)]
      (with_state (authenticated a h) w) (inr ()).
Proof.
  intros Ha Hls Hstr Hparse Hfresh. unfold_run.
  rewrite Ha. cbn. rewrite Hls, Hstr. cbn. rewrite Hparse. cbn.
  rewrite Hfresh. reflexivity.
Qed.

(** The run of the authorization block of [loadCeramicSession], by the
    answers of the nonce endpoint and of [DIDSession.authorize]. *)
Lemma authorizeSession_run E ap w :
  authorizeSession E ap w =
    match getCsrfToken E with
    | inl e => mkRun [EvGetCsrfToken (inl e)] w (inl e)
    | inr n =>
        match DIDSession_authorize E ap (challenge E n) with
        | inl e =>
            mkRun [EvGetCsrfToken (inr n);
                   EvAuthorize ap (challenge E n) (inl e)] w (inl e)
        | inr h =>
            mkRun [EvGetCsrfToken (inr n);
                   EvAuthorize ap (challenge E n) (inr h);
                   EvSetItem "didsession" (serialize h)]
              (with_localStorage
                 (<["didsession" := serialize h]> (localStorage w)) w)
              (inr h)
        end
    end.
Proof.
  unfold_run. unfold challenge.
  destruct (getCsrfToken E) as [e | n]; cbn; [reflexivity |].
  destruct (DIDSession_authorize E ap _) as [e | h]; reflexivity.
Qed.

(** With no usable record, [loginWithCeramic] is the read phase, then the
    authorization block, then the commit of the authorized handle. *)
Lemma loginWithCeramic_authorize_run E p a w :
  truthy a = true ->
  no_usable_record E w ->
  let ap := {| ap_provider := p; ap_address := a |} in
  let r := authorizeSession E ap w in
  loginWithCeramic E (Some p) (Some a) w =
    match outcome r with
    | inl e => mkRun (read_events E w ++ trace r) (final r) (inl e)
    | inr h =>
        mkRun (read_events E w ++ trace r ++ [EvSetState (authenticated a h)])
          (with_state (authenticated a h) (final r)) (inr ())
    end.
Proof.
  intros Ha Hrec ap r. subst r.
  assert (Hload : loadCeramicSession E ap w =
    let r := authorizeSession E ap w in
    mkRun (read_events E w ++ trace r) (final r) (outcome r)).
  { unfold loadCeramicSession, read_events.
    unfold localStorage_getItem, fromSession, perform, mbind, M_bind, mret,
      M_ret.
    destruct Hrec as [Hnone | (str & h & Hsome & Hparse & Hhas & Hexp)].
    - rewrite Hnone. cbn. destruct (authorizeSession E ap w); reflexivity.
    - rewrite Hsome. cbn. destruct (truthy str); cbn.
      + rewrite Hparse. cbn. rewrite Hhas, Hexp. cbn.
        destruct (authorizeSession E ap w); reflexivity.
      + destruct (authorizeSession E ap w); reflexivity. }
  unfold loginWithCeramic. rewrite Ha. fold ap.
  unfold mbind at 1. unfold M_bind at 1. rewrite Hload. cbn.
  destruct (outcome (authorizeSession E ap w)) as [e | h]; [reflexivity |].
  unfold setState, perform. cbn. rewrite <- app_assoc. reflexivity.
Qed.

Lemma read_events_calls E w :
  calls is_getNonce (read_events E w) = 0 /\
  calls is_authorize (read_events E w) = 0 /\
  calls is_storage_write (read_events E w) = 0 /\
  calls is_commit (read_events E w) = 0.
Proof.
  unfold read_events.
  destruct (localStorage w !! "didsession") as [str |]; [| done].
  destruct (truthy str); done.
Qed.

Lemma calls_app kind (tr1 tr2 : list Event) :
  calls kind (tr1 ++ tr2) = calls kind tr1 + calls kind tr2.
Proof. unfold calls. rewrite filter_app. apply length_app. Qed.

(** ** Login *)

(** C1.  When the provider and a non-empty address are present and no
    record is stored under ["didsession"] (or the stored record
    deserializes to a handle with [hasSession] and [isExpired]),
    [loginWithCeramic] fetches the nonce exactly once; with that nonce it
    calls [DIDSession.authorize] exactly once, for the provider and the
    address, with [resources = ["ceramic://*"]], the nonce, and
    [protocol//host] as domain; and it writes the serialization of the
    handle [authorize] returned under ["didsession"], whatever was stored
    there before. *)
Theorem loginWithCeramic_authorizes_new_session E p a w :
  truthy a = true ->
  no_usable_record E w ->
  let ap := {| ap_provider := p; ap_address := a |} in
  let r := loginWithCeramic E (Some p) (Some a) w in
  calls is_getNonce (trace r) = 1 /\
  forall n, getCsrfToken E = inr n ->
    let opts :=
      {| resources := ["ceramic://*"];
         nonce := n;
         domain := location_protocol E +:+ "//" +:+ location_host E |} in
    calls is_authorize (trace r) = 1 /\
    EvAuthorize ap opts (DIDSession_authorize E ap opts) ∈ trace r /\
    forall h, DIDSession_authorize E ap opts = inr h ->
      calls is_storage_write (trace r) = 1 /\
      EvSetItem "didsession" (serialize h) ∈ trace r /\
      localStorage (final r) =
        <["didsession" := serialize h]> (localStorage w) /\
      localStorage (final r) !! "didsession" = Some (serialize h) /\
      outcome r = inr () /\
      state (final r) = authenticated a h.
Proof.
  intros Ha Hrec ap r. subst r.
  rewrite (loginWithCeramic_authorize_run E p a w Ha Hrec). fold ap.
  rewrite authorizeSession_run.
  destruct (read_events_calls E w) as (Hn & Hau & Hwr & _).
  fold (challenge E).
  split.
  - destruct (getCsrfToken E) as [e | n]; cbn [outcome trace final].
    + rewrite calls_app, Hn. reflexivity.
    + destruct (DIDSession_authorize E ap (challenge E n));
        cbn [outcome trace final]; rewrite calls_app, Hn; reflexivity.
  - intros n Hnonce opts. subst opts. fold (challenge E n). rewrite Hnonce.
    split; [| split].
    + destruct (DIDSession_authorize E ap (challenge E n));
        cbn [outcome trace final]; rewrite calls_app, Hau; reflexivity.
    + destruct (DIDSession_authorize E ap (challenge E n));
        cbn [outcome trace final]; rewrite elem_of_app; right; set_solver.
    + intros h Hauth. rewrite Hauth. cbn [outcome trace final].
      split; [rewrite calls_app, Hwr; reflexivity |].
      split; [rewrite elem_of_app; right; set_solver |].
      split; [reflexivity |].
      split; [apply lookup_insert_eq |].
      split; reflexivity.
Qed.

Lemma loginWithCeramic_authorizes_new_session_witness :
  let r := loginWithCeramic Examples.online (Some Examples.metamask)
             (Some Examples.alice) Examples.expired_browser in
  calls is_getNonce (trace r) = 1 /\
  calls is_authorize (trace r) = 1 /\
  localStorage (final r) !! "didsession" = Some "fresh-session".
Proof.
  assert (Hrec : no_usable_record Examples.online Examples.expired_browser).
  { right. exists "expired-session", Examples.expiredSession.
    repeat split; reflexivity. }
  pose proof (loginWithCeramic_authorizes_new_session Examples.online
    Examples.metamask Examples.alice Examples.expired_browser
    eq_refl Hrec) as [Hnonce Hrest].
  destruct (Hrest "csrf-1" eq_refl) as (Hauth & _ & Hwrite).
  destruct (Hwrite Examples.freshSession eq_refl) as (_ & _ & _ & Hls & _).
  split; [exact Hnonce |]. split; [exact Hauth | exact Hls].
Defined.

(** C2.  When the provider and a non-empty address are present and the
    record stored under ["didsession"] deserializes to a handle that is not
    expired, [loginWithCeramic] never calls [DIDSession.authorize] (nor the
    nonce endpoint, nor [localStorage.setItem]) and resolves with the state
    [isLoading = false], [isAuthenticated = true], [user = {address}] and
    [didSession] the deserialized handle.  A stored record is a non-empty
    string: [if (sessionStr)] takes the empty string for no record. *)
Theorem loginWithCeramic_reuses_stored_session E p a str h w :
  truthy a = true ->
  localStorage w !! "didsession" = Some str ->
  truthy str = true ->
  DIDSession_fromSession E str = inr h ->
  isExpired h = false ->
  let r := loginWithCeramic E (Some p) (Some a) w in
  calls is_authorize (trace r) = 0 /\
  calls is_getNonce (trace r) = 0 /\
  calls is_storage_write (trace r) = 0 /\
  outcome r = inr () /\
  state (final r) =
    {| isLoading := false;
       isAuthenticated := true;
       user := Some {| address := a |};
       didSession := Some h |} /\
  localStorage (final r) = localStorage w.
Proof.
  intros Ha Hls Hstr Hparse Hexp r. subst r.
  rewrite (loginWithCeramic_stored_run E p a str h w Ha Hls Hstr Hparse)
    by (rewrite Hexp; apply andb_false_r).
  repeat split.
Qed.

Lemma loginWithCeramic_reuses_stored_session_witness :
  let r := loginWithCeramic Examples.online (Some Examples.metamask)
             (Some Examples.alice) Examples.returning_browser in
  calls is_authorize (trace r) = 0 /\
  state (final r) = authenticated "0xABC" Examples.storedSession.
Proof.
  pose proof (loginWithCeramic_reuses_stored_session Examples.online
    Examples.metamask Examples.alice "stored-session" Examples.storedSession
    Examples.returning_browser eq_refl eq_refl eq_refl eq_refl eq_refl)
    as (Hauth & _ & _ & _ & Hstate & _).
  split; [exact Hauth | exact Hstate].
Defined.

(** C4.  When the provider is absent or the address is absent,
    [loginWithCeramic] commits [isLoading = false],
    [isAuthenticated = false], [user = undefined], [didSession = undefined]
    and returns normally; its only effect is that commit: no storage read,
    no storage write, no nonce fetch, no authorization call. *)
Theorem loginWithCeramic_guard_unmet E provider addr w :
  provider = None \/ addr = None ->
  let r := loginWithCeramic E provider addr w in
  outcome r = inr () /\
  state (final r) =
    {| isLoading := false;
       isAuthenticated := false;
       user := None;
       didSession := None |} /\
  trace r = [EvSetState (state (final r))] /\
  localStorage (final r) = localStorage w /\
  calls is_storage_read (trace r) = 0 /\
  calls is_storage_write (trace r) = 0 /\
  calls is_getNonce (trace r) = 0 /\
  calls is_authorize (trace r) = 0.
Proof.
  intros H r. subst r.
  rewrite loginWithCeramic_unmet_run by tauto.
  repeat split.
Qed.

Lemma loginWithCeramic_guard_unmet_witness :
  let r := loginWithCeramic Examples.online None None
             Examples.returning_browser in
  outcome r = inr () /\
  state (final r) = unauthenticated /\
  trace r = [EvSetState unauthenticated].
Proof.
  pose proof (loginWithCeramic_guard_unmet Examples.online None None
    Examples.returning_browser (or_introl eq_refl))
    as (Hout & Hstate & Htrace & _).
  split; [exact Hout |]. split; [exact Hstate | exact Htrace].
Defined.

(** X15.  The empty address is falsy as well: with [address = ""] the guard
    [!address] holds whatever the provider is, and the run is the single
    commit of the unauthenticated state. *)
Lemma loginWithCeramic_empty_address E provider w :
  loginWithCeramic E provider (Some "") w =
    mkRun [EvSetState unauthenticated] (with_state unauthenticated w) (inr ()).
Proof. apply loginWithCeramic_unmet_run. tauto. Qed.

(** ** Failures *)

(** C5.  If, during a run of [loginWithCeramic], the deserialization of the
    stored record, the nonce fetch or the authorization call rejects with
    [e], then the run rejects with that same [e]; the rejected call is the
    last thing the run does and each of the three calls is made at most
    once (no retry); and nothing is committed: no [setState] happens, the
    state record, and indeed the whole world, are as before the call. *)
Theorem loginWithCeramic_failure_propagates E provider addr w ev e :
  let r := loginWithCeramic E provider addr w in
  ev ∈ trace r ->
  rejection ev = Some e ->
  outcome r = inl e /\
  last (trace r) = Some ev /\
  calls is_fromSession (trace r) ≤ 1 /\
  calls is_getNonce (trace r) ≤ 1 /\
  calls is_authorize (trace r) ≤ 1 /\
  calls is_commit (trace r) = 0 /\
  state (final r) = state w /\
  final r = w.
Proof.
  intros r Hin Hrej. subst r. revert Hin.
  run_cases;
    intros Hin; split_trace Hin; try discriminate Hrej;
    cbn in Hrej; injection Hrej as <-;
    repeat split; vm_compute; lia.
Qed.

Lemma loginWithCeramic_failure_propagates_witness :
  let r := loginWithCeramic Examples.online (Some Examples.metamask)
             (Some Examples.alice) Examples.corrupt_browser in
  outcome r = inl (Error "SyntaxError: Unexpected token") /\
  final r = Examples.corrupt_browser.
Proof.
  assert (Hin :
    EvFromSession "{not base64" (inl (Error "SyntaxError: Unexpected token"))
      ∈ trace (loginWithCeramic Examples.online (Some Examples.metamask)
                 (Some Examples.alice) Examples.corrupt_browser)).
  { vm_compute. apply list_elem_of_further, list_elem_of_here. }
  pose proof (loginWithCeramic_failure_propagates Examples.online
    (Some Examples.metamask) (Some Examples.alice) Examples.corrupt_browser
    _ (Error "SyntaxError: Unexpected token") Hin eq_refl)
    as (Hout & _ & _ & _ & _ & _ & _ & Hfinal).
  split; [exact Hout | exact Hfinal].
Defined.


(** ** Logout *)

(** The claim that [logout] resets the state whether or not the sign-out
    call succeeds fails: [await nextAuthSignOut()] stands before [setState],
    so when the backend cannot be reached the run rejects there and alice
    stays authenticated. *)
Lemma logout_signOut_rejected_keeps_state :
  let r := logout Examples.backend_down Examples.logged_in in
  outcome r = inl (Error "Failed to fetch") /\
  trace r = [EvWagmiDisconnect; EvSignOut (inl (Error "Failed to fetch"))] /\
  state (final r) = authenticated "0xABC" Examples.storedSession /\
  state (final r) <> unauthenticated.
Proof. vm_compute. repeat split. discriminate. Qed.

(** C3, amended.  From every prior state, when the backend sign-out call
    resolves, [logout] commits [isLoading = false],
    [isAuthenticated = false], [user = undefined], [didSession = undefined];
    the commit comes after the awaited sign-out call; and [logout] is
    idempotent: a second [logout] whose sign-out resolves leaves the world
    the first one left. *)
Theorem logout_resets_when_signOut_resolves E E' w :
  nextAuthSignOut E = inr () ->
  nextAuthSignOut E' = inr () ->
  let r := logout E w in
  outcome r = inr () /\
  state (final r) =
    {| isLoading := false;
       isAuthenticated := false;
       user := None;
       didSession := None |} /\
  trace r =
    [EvWagmiDisconnect; EvSignOut (inr ()); EvSetState (state (final r))] /\
  final (logout E' (final r)) = final r.
Proof.
  intros HE HE' r. subst r. unfold_run. rewrite HE. cbn.
  rewrite HE'. cbn. repeat split.
Qed.

Lemma logout_resets_when_signOut_resolves_witness :
  let r := logout Examples.online Examples.logged_in in
  state (final r) = unauthenticated /\
  final (logout Examples.online (final r)) = final r.
Proof.
  pose proof (logout_resets_when_signOut_resolves Examples.online
    Examples.online Examples.logged_in eq_refl eq_refl)
    as (_ & Hstate & _ & Hidem).
  split; [exact Hstate | exact Hidem].
Defined.

(** X17.  When the sign-out call rejects, [logout] rejects with the same
    error and commits nothing: state and storage are as before, but the
    wallet connector has been disconnected by then. *)
Lemma logout_signOut_rejects E w e :
  nextAuthSignOut E = inl e ->
  logout E w =
    mkRun [EvWagmiDisconnect; EvSignOut (inl e)]
      (with_status disconnected w) (inl e).
Proof. intros HE. unfold_run. rewrite HE. reflexivity. Qed.

(** Either way the run of [logout] is determined by the answer of the
    sign-out call. *)
Lemma logout_run E w :
  logout E w =
    match nextAuthSignOut E with
    | inl e =>
        mkRun [EvWagmiDisconnect; EvSignOut (inl e)]
          (with_status disconnected w) (inl e)
    | inr u =>
        mkRun [EvWagmiDisconnect; EvSignOut (inr u);
               EvSetState unauthenticated]
          (with_state unauthenticated (with_status disconnected w)) (inr ())
    end.
Proof. unfold_run. destruct (nextAuthSignOut E) as [e | []]; reflexivity. Qed.

Lemma logout_localStorage E w :
  localStorage (final (logout E w)) = localStorage w.
Proof. rewrite logout_run. destruct (nextAuthSignOut E); reflexivity. Qed.

(** C6.  [logout] never touches [localStorage]: whatever is stored under
    ["didsession"] is still there afterwards, whether the sign-out call
    resolved or not.  So a stored credential that is not expired is reused
    by the next [loginWithCeramic] in the same browser, without a new
    authorization. *)
Theorem logout_keeps_persisted_record E w :
  let r := logout E w in
  localStorage (final r) = localStorage w /\
  localStorage (final r) !! "didsession" = localStorage w !! "didsession" /\
  calls is_storage_write (trace r) = 0 /\
  forall E' p a str h,
    truthy a = true ->
    localStorage w !! "didsession" = Some str ->
    truthy str = true ->
    DIDSession_fromSession E' str = inr h ->
    isExpired h = false ->
    let r' := loginWithCeramic E' (Some p) (Some a) (final r) in
    calls is_authorize (trace r') = 0 /\
    outcome r' = inr () /\
    state (final r') = authenticated a h.
Proof.
  intros r. subst r.
  pose proof (logout_localStorage E w) as Hls.
  split; [exact Hls |]. split; [rewrite Hls; reflexivity |].
  split; [rewrite logout_run; destruct (nextAuthSignOut E); reflexivity |].
  intros E' p a str h Ha Hstored Hstr Hparse Hexp r'. subst r'.
  rewrite (loginWithCeramic_stored_run E' p a str h).
  - repeat split.
  - exact Ha.
  - rewrite Hls. exact Hstored.
  - exact Hstr.
  - exact Hparse.
  - rewrite Hexp. apply andb_false_r.
Qed.

Lemma logout_keeps_persisted_record_witness :
  let r := logout Examples.online Examples.logged_in in
  let r' := loginWithCeramic Examples.online (Some Examples.metamask)
              (Some Examples.alice) (final r) in
  localStorage (final r) !! "didsession" = Some "stored-session" /\
  calls is_authorize (trace r') = 0 /\
  state (final r') = authenticated "0xABC" Examples.storedSession.
Proof.
  pose proof (logout_keeps_persisted_record Examples.online
    Examples.logged_in) as (_ & Hrecord & _ & Hnext).
  destruct (Hnext Examples.online Examples.metamask Examples.alice
    "stored-session" Examples.storedSession
    eq_refl eq_refl eq_refl eq_refl eq_refl) as (Hauth & _ & Hstate).
  split; [exact Hrecord |]. split; [exact Hauth | exact Hstate].
Defined.

(** ** Invariants of the state record *)

(** Every [setState] of [loginWithCeramic] commits one of the two shapes,
    and the state it leaves is the prior one or one of the two. *)
Lemma loginWithCeramic_commits E provider addr w :
  let r := loginWithCeramic E provider addr w in
  (forall s, EvSetState s ∈ trace r -> committed s) /\
  (state (final r) = state w \/ committed (state (final r))).
Proof.
  intros r. subst r.
  run_cases;
    (split;
     [intros st Hin; split_commits Hin;
      first [left; reflexivity | right; eexists _, _; reflexivity]
     | first [left; reflexivity
             | right; left; reflexivity
             | right; right; eexists _, _; reflexivity]]).
Qed.

Lemma command_commits E t w :
  (forall s, EvSetState s ∈ trace (command E t w) -> committed s) /\
  (state (fire E t w) = state w \/ committed (state (fire E t w))).
Proof.
  unfold fire. destruct t as [provider addr | | c provider addr]; cbn.
  - apply loginWithCeramic_commits.
  - rewrite logout_run. destruct (nextAuthSignOut E) as [e | u]; cbn.
    + split; [intros s Hin; split_commits Hin | left; reflexivity].
    + split; [intros s Hin; split_commits Hin | right]; left; reflexivity.
  - unfold statusEffect, detach. cbn.
    destruct c; cbn;
      try (split; [intros s Hin; split_commits Hin | left; reflexivity]).
    apply (loginWithCeramic_commits E provider addr (with_status connected w)).
Qed.

Lemma committed_not_loading s : committed s -> isLoading s = false.
Proof. intros [-> | (a & h & ->)]; reflexivity. Qed.

Lemma committed_has_user s :
  committed s -> isAuthenticated s = true -> user s <> None.
Proof. intros [-> | (a & h & ->)]; cbn; congruence. Qed.

(** A reachable state is the initial one or a committed one. *)
Lemma reachable_state w :
  reachable w -> state w = initialState \/ committed (state w).
Proof.
  intros (ls & c & Hreach).
  apply (rtc_ind_r (R := step)
           (fun w' => state w' = initialState \/ committed (state w'))
           (mount ls c)); [| | exact Hreach].
  - left. reflexivity.
  - intros w1 w2 _ (E & t & ->) IH.
    destruct (command_commits E t w1) as [_ [Hsame | Hcommit]].
    + rewrite Hsame. exact IH.
    + right. exact Hcommit.
Qed.

(** C7.  In every state reachable from the initial one by any sequence of
    [loginWithCeramic], [logout] and wallet status changes,
    [isAuthenticated = true] implies that [user] is present. *)
Theorem authenticated_implies_user w :
  reachable w ->
  isAuthenticated (state w) = true ->
  user (state w) <> None.
Proof.
  intros Hreach Hauth.
  destruct (reachable_state w Hreach) as [Hinit | Hcommit].
  - rewrite Hinit in Hauth. discriminate Hauth.
  - apply committed_has_user; assumption.
Qed.

Lemma authenticated_implies_user_witness :
  reachable Examples.logged_in /\
  isAuthenticated (state Examples.logged_in) = true /\
  user (state Examples.logged_in) <> None.
Proof.
  assert (Hreach : reachable Examples.logged_in).
  { exists {[ "didsession" := "stored-session" ]}, connected.
    apply rtc_once.
    exists Examples.online,
      (TLogin (Some Examples.metamask) (Some Examples.alice)).
    reflexivity. }
  split; [exact Hreach |]. split; [reflexivity |].
  exact (authenticated_implies_user Examples.logged_in Hreach eq_refl).
Defined.

(** A transition that performs no [setState] leaves the state record as it
    was. *)
Lemma no_commit_keeps_state E t w :
  calls is_commit (trace (command E t w)) = 0 ->
  state (fire E t w) = state w.
Proof.
  unfold fire. destruct t as [provider addr | | c provider addr]; cbn.
  - run_cases; intros H; first [reflexivity | vm_compute in H; discriminate H].
  - rewrite logout_run. destruct (nextAuthSignOut E) as [e | u]; cbn.
    + reflexivity.
    + intros H. vm_compute in H. discriminate H.
  - unfold statusEffect, detach. destruct c; cbn; try reflexivity.
    run_cases; intros H; first [reflexivity | vm_compute in H; discriminate H].
Qed.

(** C8.  The state [AuthProvider] starts with is [isLoading = true],
    [isAuthenticated = false], [user = undefined], [didSession = undefined],
    whatever the browser has stored and whatever the wallet connector
    reports, and that is the state as long as no transition has
    committed. *)
Theorem AuthProvider_initial_state w :
  uncommitted w ->
  state w =
    {| isLoading := true;
       isAuthenticated := false;
       user := None;
       didSession := None |}.
Proof.
  induction 1 as [ls c | E t w _ IH Hnone].
  - reflexivity.
  - rewrite (no_commit_keeps_state E t w Hnone). exact IH.
Qed.

Lemma AuthProvider_initial_state_witness :
  state (mount {[ "didsession" := "stored-session" ]} connecting) =
    initialState /\
  state (fire Examples.backend_down
           (TLogin (Some Examples.metamask) (Some Examples.alice))
           Examples.empty_browser) = initialState.
Proof.
  split.
  - apply AuthProvider_initial_state. apply uncommitted_mount.
  - apply AuthProvider_initial_state.
    apply uncommitted_fire; [apply uncommitted_mount | reflexivity].
Defined.

(** C10.  Every [setState] performed by a transition ([loginWithCeramic]
    with its guard unmet or on its success path, [logout], the status
    effect) commits [isLoading = false]; hence from a world whose state is
    not loading, no sequence of transitions leads to a loading state. *)
Theorem commits_clear_isLoading :
  (forall E t w s,
     EvSetState s ∈ trace (command E t w) -> isLoading s = false) /\
  (forall w w',
     rtc step w w' ->
     isLoading (state w) = false ->
     isLoading (state w') = false).
Proof.
  split.
  - intros E t w s Hin. apply committed_not_loading.
    exact (proj1 (command_commits E t w) s Hin).
  - intros w w' Hsteps Hw.
    apply (rtc_ind_r (R := step) (fun w2 => isLoading (state w2) = false) w);
      [exact Hw | | exact Hsteps].
    intros w1 w2 _ (E & t & ->) IH.
    destruct (command_commits E t w1) as [_ [Hsame | Hcommit]].
    + rewrite Hsame. exact IH.
    + apply committed_not_loading, Hcommit.
Qed.

Lemma commits_clear_isLoading_witness :
  isLoading (state (fire Examples.backend_down
    (TLogin (Some Examples.metamask) (Some Examples.alice))
    (fire Examples.online TLogout Examples.logged_in))) = false.
Proof.
  apply (proj2 commits_clear_isLoading Examples.logged_in).
  - eapply rtc_l; [exists Examples.online, TLogout; reflexivity |].
    apply rtc_once.
    exists Examples.backend_down,
      (TLogin (Some Examples.metamask) (Some Examples.alice)).
    reflexivity.
  - reflexivity.
Defined.

(** Every state a transition commits satisfies the invariant, whatever the
    state was before. *)
Lemma commit_authenticated_implies_user E t w s :
  EvSetState s ∈ trace (command E t w) ->
  isAuthenticated s = true ->
  user s <> None.
Proof.
  intros Hin. apply committed_has_user.
  exact (proj1 (command_commits E t w) s Hin).
Qed.

(** ** The stored record across two logins *)

(** The handle [loginWithCeramic] has just authorized and stored is the one
    the next login finds, as long as the session library reads back what it
    serialized and the handle has not expired in between. *)
Lemma stored_handle_found_by_next_login E p a w h :
  truthy a = true ->
  localStorage w !! "didsession" = Some (serialize h) ->
  truthy (serialize h) = true ->
  DIDSession_fromSession E (serialize h) = inr h ->
  isExpired h = false ->
  state (final (loginWithCeramic E (Some p) (Some a) w)) = authenticated a h.
Proof.
  intros Ha Hls Hstr Hparse Hexp.
  rewrite (loginWithCeramic_stored_run E p a (serialize h) h w Ha Hls Hstr
             Hparse) by (rewrite Hexp; apply andb_false_r).
  reflexivity.
Qed.

(** ** Scenarios *)

(** Address ["0xABC"], nothing stored: one nonce fetch, one authorization,
    alice authenticated with the fresh handle, which is now stored. *)
Example scenario_first_login :
  let r := loginWithCeramic Examples.online (Some Examples.metamask)
             (Some Examples.alice) Examples.empty_browser in
  calls is_getNonce (trace r) = 1 /\
  calls is_authorize (trace r) = 1 /\
  state (final r) = authenticated "0xABC" Examples.freshSession /\
  localStorage (final r) !! "didsession" = Some "fresh-session".
Proof. vm_compute. repeat split. Qed.

(** The user refuses to sign: the login rejects with the wallet's error,
    the expired record stays where it was, the state is still the initial
    one. *)
Example scenario_user_rejects :
  let r := loginWithCeramic Examples.user_rejects (Some Examples.metamask)
             (Some Examples.alice) Examples.expired_browser in
  outcome r = inl (Error "User rejected request") /\
  calls is_authorize (trace r) = 1 /\
  calls is_storage_write (trace r) = 0 /\
  localStorage (final r) !! "didsession" = Some "expired-session" /\
  state (final r) = initialState.
Proof. vm_compute. repeat split. Qed.

(** The backend is down: no nonce, hence no authorization at all. *)
Example scenario_backend_down :
  let r := loginWithCeramic Examples.backend_down (Some Examples.metamask)
             (Some Examples.alice) Examples.empty_browser in
  outcome r = inl (Error "Failed to fetch") /\
  calls is_getNonce (trace r) = 1 /\
  calls is_authorize (trace r) = 0 /\
  state (final r) = initialState.
Proof. vm_compute. repeat split. Qed.

(** The wallet never connects and a consumer calls [loginWithCeramic]: the
    state leaves [Loading] for the unauthenticated one. *)
Example scenario_no_wallet :
  let r := loginWithCeramic Examples.online None None
             (mount ∅ disconnected) in
  state (final r) = unauthenticated /\ localStorage (final r) = ∅.
Proof. split; reflexivity. Qed.

(** ** The worlds a login can leave *)

(** Every run of [loginWithCeramic] ends in one of four worlds: the prior
    one (a rejection), the prior one with the unauthenticated state, the
    prior one with an authenticated state for the stored handle, or the
    prior one with a freshly authorized handle both stored and committed. *)
Lemma loginWithCeramic_world E provider addr w :
  let r := loginWithCeramic E provider addr w in
  (exists e, outcome r = inl e /\ final r = w) \/
  (outcome r = inr () /\ final r = with_state unauthenticated w) \/
  (exists a h,
     addr = Some a /\ truthy a = true /\ outcome r = inr () /\
     final r = with_state (authenticated a h) w) \/
  (exists a h,
     addr = Some a /\ truthy a = true /\ outcome r = inr () /\
     final r =
       with_state (authenticated a h)
         (with_localStorage
            (<["didsession" := serialize h]> (localStorage w)) w)).
Proof.
  intros r. subst r. unfold_run.
  destruct provider as [p |], addr as [a |];
    try (right; left; split; reflexivity).
  destruct (truthy a) eqn:Ha; [| right; left; split; reflexivity].
  repeat (next_answer; cbn [trace final outcome app]);
    first
      [ left; eexists; split; reflexivity
      | right; right; left; eexists _, _;
        solve [repeat split; first [reflexivity | assumption]]
      | right; right; right; eexists _, _;
        solve [repeat split; first [reflexivity | assumption]] ].
Qed.

(** The same for any transition, read on the state and the storage. *)
Lemma fire_world E t w :
  (state (fire E t w) = state w /\
   localStorage (fire E t w) = localStorage w) \/
  (state (fire E t w) = unauthenticated /\
   localStorage (fire E t w) = localStorage w) \/
  (exists a h,
     truthy a = true /\
     state (fire E t w) = authenticated a h /\
     localStorage (fire E t w) = localStorage w) \/
  (exists a h,
     truthy a = true /\
     state (fire E t w) = authenticated a h /\
     localStorage (fire E t w) =
       <["didsession" := serialize h]> (localStorage w)).
Proof.
  assert (Hlogin : forall provider addr w0,
    let w' := final (loginWithCeramic E provider addr w0) in
    (state w' = state w0 /\ localStorage w' = localStorage w0) \/
    (state w' = unauthenticated /\ localStorage w' = localStorage w0) \/
    (exists a h, truthy a = true /\ state w' = authenticated a h /\
       localStorage w' = localStorage w0) \/
    (exists a h, truthy a = true /\ state w' = authenticated a h /\
       localStorage w' = <["didsession" := serialize h]> (localStorage w0))).
  { intros provider addr w0 w'. subst w'.
    destruct (loginWithCeramic_world E provider addr w0)
      as [(e & _ & ->) | [(_ & ->) | [(a & h & _ & Ha & _ & ->)
         | (a & h & _ & Ha & _ & ->)]]].
    - left. split; reflexivity.
    - right; left. split; reflexivity.
    - right; right; left. exists a, h. repeat split; assumption.
    - right; right; right. exists a, h. repeat split; assumption. }
  unfold fire. destruct t as [provider addr | | c provider addr]; cbn.
  - apply Hlogin.
  - rewrite logout_run. destruct (nextAuthSignOut E) as [e | u]; cbn.
    + left. split; reflexivity.
    + right; left. split; reflexivity.
  - unfold statusEffect, detach.
    destruct c; cbn; try (left; split; reflexivity).
    apply (Hlogin provider addr (with_status connected w)).
Qed.

(** A reachable state is the initial one, the unauthenticated one, or an
    authenticated one for a non-empty address. *)
Lemma reachable_shape w :
  reachable w ->
  state w = initialState \/
  state w = unauthenticated \/
  exists a h, truthy a = true /\ state w = authenticated a h.
Proof.
  intros (ls & c & Hreach).
  apply (rtc_ind_r (R := step)
           (fun w' =>
              state w' = initialState \/
              state w' = unauthenticated \/
              exists a h, truthy a = true /\ state w' = authenticated a h)
           (mount ls c)); [| | exact Hreach].
  - left. reflexivity.
  - intros w1 w2 _ (E & t & ->) IH.
    destruct (fire_world E t w1)
      as [[Hs _] | [[Hs _] | [(a & h & Ha & Hs & _) | (a & h & Ha & Hs & _)]]].
    + rewrite Hs. exact IH.
    + right; left. exact Hs.
    + right; right. exists a, h. split; assumption.
    + right; right. exists a, h. split; assumption.
Qed.

Lemma truthy_nonempty a : truthy a = true -> a <> "".
Proof. intros H ->. discriminate H. Qed.

(** ** The guard and the login page *)

(** X1.  Whenever [Protected] renders its children in a reachable world,
    the state holds a user with a non-empty address and a session handle. *)
Theorem Protected_children_have_session w :
  reachable w ->
  Protected (state w) = Children ->
  exists a h,
    a <> "" /\
    user (state w) = Some {| address := a |} /\
    didSession (state w) = Some h.
Proof.
  intros Hreach Hshow.
  destruct (reachable_shape w Hreach) as [Hs | [Hs | (a & h & Ha & Hs)]];
    rewrite Hs in *; try discriminate Hshow.
  exists a, h. split; [apply truthy_nonempty, Ha |]. split; reflexivity.
Qed.

Lemma Protected_children_have_session_witness :
  exists a h,
    a <> "" /\
    user (state Examples.logged_in) = Some {| address := a |} /\
    didSession (state Examples.logged_in) = Some h.
Proof.
  apply Protected_children_have_session; [| reflexivity].
  exists {[ "didsession" := "stored-session" ]}, connected.
  apply rtc_once.
  exists Examples.online,
    (TLogin (Some Examples.metamask) (Some Examples.alice)).
  reflexivity.
Defined.

(** X2.  As long as no transition has committed, [Protected] shows the
    loading screen: a first login that rejects leaves the guarded pages on
    it, without a redirect to the login page. *)
Theorem Protected_loading_until_first_commit w :
  uncommitted w ->
  Protected (state w) = FullScreenLoading.
Proof.
  induction 1 as [ls c | E t w _ IH Hnone].
  - reflexivity.
  - rewrite (no_commit_keeps_state E t w Hnone). exact IH.
Qed.

Lemma Protected_loading_until_first_commit_witness :
  Protected (state (fire Examples.user_rejects
                      (TStatus connected (Some Examples.metamask)
                         (Some Examples.alice))
                      Examples.empty_browser)) = FullScreenLoading.
Proof.
  apply Protected_loading_until_first_commit.
  apply uncommitted_fire; [apply uncommitted_mount | reflexivity].
Defined.

(** X3.  In a reachable world the login page and the guard agree: the page
    sends the user to ["/"] exactly when [Protected] renders its children,
    and when [Protected] redirects, it is to ["/login"], where the page
    stays. *)
Theorem login_page_and_guard_agree w :
  reachable w ->
  (loginPageEffect (state w) = Some "/" <->
   Protected (state w) = Children) /\
  (forall path,
     Protected (state w) = Redirect path ->
     path = "/login" /\ loginPageEffect (state w) = None).
Proof.
  intros Hreach.
  destruct (reachable_shape w Hreach) as [Hs | [Hs | (a & h & Ha & Hs)]];
    rewrite Hs; cbn; (split; [split; intros H; first [discriminate H | reflexivity] |]);
    intros path H; first [discriminate H | injection H as <-; split; reflexivity].
Qed.

Lemma login_page_and_guard_agree_witness :
  loginPageEffect (state Examples.logged_in) = Some "/" <->
  Protected (state Examples.logged_in) = Children.
Proof.
  apply login_page_and_guard_agree.
  exists {[ "didsession" := "stored-session" ]}, connected.
  apply rtc_once.
  exists Examples.online,
    (TLogin (Some Examples.metamask) (Some Examples.alice)).
  reflexivity.
Defined.

(** X4.  [handleSignMessage] never rejects and always leaves the signing
    step ['complete'], whether the login resolved or not.  When the login
    resolved, no toast is shown; when a collaborator rejected with [e], one
    toast with the message of [e] is shown and the provider's world is as
    before the click. *)
Theorem handleSignMessage_settles E provider addr pg w :
  let r := loginWithCeramic E provider addr w in
  let pr := handleSignMessage (loginWithCeramic E provider addr) pg w in
  outcome (page_run pr) = inr () /\
  signingState (page_after pr) = complete /\
  (forall u, step2Variant u (signingState (page_after pr)) = complete) /\
  final (page_run pr) = final r /\
  ((outcome r = inr () /\ toasts (page_after pr) = toasts pg) \/
   (exists e,
      outcome r = inl e /\
      toasts (page_after pr) = toasts pg ++ [error_message e] /\
      final (page_run pr) = w)).
Proof.
  intros r pr. subst r pr. unfold handleSignMessage. cbv zeta.
  cbn [page_after page_run signingState toasts outcome final trace].
  split; [reflexivity |]. split; [reflexivity |].
  split; [intros [u |]; reflexivity |]. split; [reflexivity |].
  destruct (loginWithCeramic_world E provider addr w)
    as [(e & Hout & Hw) | [(Hout & _) | [(a & h & _ & _ & Hout & _)
       | (a & h & _ & _ & Hout & _)]]];
    rewrite Hout; cbn [toasts];
    first [left; split; reflexivity | right; exists e; repeat split; exact Hw].
Qed.

(** [handleLogout] of the page leaves [localStorage] as it was. *)
Lemma handleLogout_run E w :
  handleLogout (logout E) w =
    match nextAuthSignOut E with
    | inl e =>
        mkRun [EvWagmiDisconnect; EvWagmiDisconnect; EvSignOut (inl e)]
          (with_status disconnected w) (inr ())
    | inr u =>
        mkRun [EvWagmiDisconnect; EvWagmiDisconnect; EvSignOut (inr u);
               EvSetState unauthenticated]
          (with_state unauthenticated (with_status disconnected w)) (inr ())
    end.
Proof.
  unfold handleLogout, detach, wagmiDisconnect, perform, mbind, M_bind.
  rewrite logout_run. destruct (nextAuthSignOut E) as [e | u]; reflexivity.
Qed.


(** X6.  ["Change account"] keeps the session of the previous account:
    after a login for address [a] that authorized and stored the handle
    [h], and a [handleLogout], a login for any address [b] in the same
    browser authorizes nothing and commits user [b] with the handle read
    back from the record of [a]. *)
Theorem change_account_keeps_session E1 E2 E3 p p' a b n h h' w :
  truthy a = true ->
  truthy b = true ->
  no_usable_record E1 w ->
  getCsrfToken E1 = inr n ->
  DIDSession_authorize E1 {| ap_provider := p; ap_address := a |}
    (challenge E1 n) = inr h ->
  truthy (serialize h) = true ->
  DIDSession_fromSession E3 (serialize h) = inr h' ->
  isExpired h' = false ->
  let w1 := final (loginWithCeramic E1 (Some p) (Some a) w) in
  let w2 := final (handleLogout (logout E2) w1) in
  let r := loginWithCeramic E3 (Some p') (Some b) w2 in
  state w1 = authenticated a h /\
  calls is_authorize (trace r) = 0 /\
  calls is_getNonce (trace r) = 0 /\
  state (final r) = authenticated b h'.
Proof.
  intros Ha Hb Hrec Hnonce Hauth Hstr Hparse Hexp w1 w2 r.
  assert (Hw1 : state w1 = authenticated a h /\
                localStorage w1 !! "didsession" = Some (serialize h)).
  { subst w1. rewrite (loginWithCeramic_authorize_run E1 p a w Ha Hrec).
    rewrite authorizeSession_run, Hnonce, Hauth. cbn.
    split; [reflexivity | apply lookup_insert_eq]. }
  destruct Hw1 as [Hs1 Hls1]. split; [exact Hs1 |].
  assert (Hls2 : localStorage w2 !! "didsession" = Some (serialize h)).
  { subst w2. rewrite handleLogout_run.
    destruct (nextAuthSignOut E2); exact Hls1. }
  subst r.
  rewrite (loginWithCeramic_stored_run E3 p' b (serialize h) h' w2
             Hb Hls2 Hstr Hparse) by (rewrite Hexp; apply andb_false_r).
  repeat split.
Qed.

Lemma change_account_keeps_session_witness :
  let w1 := final (loginWithCeramic Examples.online (Some Examples.metamask)
                     (Some Examples.alice) Examples.empty_browser) in
  let w2 := final (handleLogout (logout Examples.backend_down) w1) in
  let r := loginWithCeramic Examples.online (Some (ProviderRef 2))
             (Some Edge.bob) w2 in
  state w1 = authenticated "0xABC" Examples.freshSession /\
  calls is_authorize (trace r) = 0 /\
  calls is_getNonce (trace r) = 0 /\
  state (final r) = authenticated "0xB0B" Examples.freshSession.
Proof.
  apply (change_account_keeps_session Examples.online Examples.backend_down
           Examples.online Examples.metamask (ProviderRef 2) Examples.alice
           Edge.bob "csrf-1" Examples.freshSession Examples.freshSession
           Examples.empty_browser);
    try reflexivity.
  left. reflexivity.
Defined.

(** ** What the provider does to [localStorage] *)

(** X7.  Along any sequence of transitions the provider leaves every key
    of [localStorage] other than ["didsession"] as it found it. *)
Theorem other_keys_untouched w w' key :
  rtc step w w' ->
  key <> "didsession" ->
  localStorage w' !! key = localStorage w !! key.
Proof.
  intros Hsteps Hkey.
  apply (rtc_ind_r (R := step)
           (fun w2 => localStorage w2 !! key = localStorage w !! key) w);
    [reflexivity | | exact Hsteps].
  intros w1 w2 _ (E & t & ->) IH.
  destruct (fire_world E t w1)
    as [[_ Hls] | [[_ Hls] | [(a & h & _ & _ & Hls) | (a & h & _ & _ & Hls)]]];
    rewrite Hls; [exact IH | exact IH | exact IH |].
  rewrite lookup_insert_ne by congruence. exact IH.
Qed.

Lemma other_keys_untouched_witness :
  localStorage
    (fire Examples.online
       (TLogin (Some Examples.metamask) (Some Examples.alice))
       (mount {[ "sigle-username-SP1" := "alice.id" ]} connected))
    !! "sigle-username-SP1" = Some "alice.id".
Proof.
  rewrite (other_keys_untouched
             (mount {[ "sigle-username-SP1" := "alice.id" ]} connected)
             _ "sigle-username-SP1").
  - reflexivity.
  - apply rtc_once.
    exists Examples.online,
      (TLogin (Some Examples.metamask) (Some Examples.alice)).
    reflexivity.
  - discriminate.
Defined.

(** X8.  No sequence of transitions removes the session record: once a
    record is stored under ["didsession"], one stays there (it can only be
    overwritten). *)
Theorem record_never_removed w w' :
  rtc step w w' ->
  is_Some (localStorage w !! "didsession") ->
  is_Some (localStorage w' !! "didsession").
Proof.
  intros Hsteps Hsome.
  apply (rtc_ind_r (R := step)
           (fun w2 => is_Some (localStorage w2 !! "didsession")) w);
    [exact Hsome | | exact Hsteps].
  intros w1 w2 _ (E & t & ->) IH.
  destruct (fire_world E t w1)
    as [[_ Hls] | [[_ Hls] | [(a & h & _ & _ & Hls) | (a & h & _ & _ & Hls)]]];
    rewrite Hls; [exact IH | exact IH | exact IH |].
  rewrite lookup_insert_eq. eexists. reflexivity.
Qed.

Lemma record_never_removed_witness :
  is_Some (localStorage (fire Examples.online TLogout Examples.logged_in)
             !! "didsession").
Proof.
  apply (record_never_removed Examples.logged_in).
  - apply rtc_once. exists Examples.online, TLogout. reflexivity.
  - exists "stored-session". reflexivity.
Defined.

(** X9.  A transition changes [localStorage] only when it also commits the
    authenticated state, and then the record is the serialization of the
    handle it commits: what is stored and what is in memory agree. *)
Theorem record_written_with_commit E t w :
  localStorage (fire E t w) <> localStorage w ->
  exists a h,
    state (fire E t w) = authenticated a h /\
    localStorage (fire E t w) !! "didsession" = Some (serialize h).
Proof.
  intros Hchanged.
  destruct (fire_world E t w)
    as [[_ Hls] | [[_ Hls] | [(a & h & _ & _ & Hls) | (a & h & _ & Hs & Hls)]]];
    try (exfalso; apply Hchanged; exact Hls).
  exists a, h. split; [exact Hs |]. rewrite Hls. apply lookup_insert_eq.
Qed.

Lemma record_written_with_commit_witness :
  exists a h,
    state (fire Examples.online
             (TLogin (Some Examples.metamask) (Some Examples.alice))
             Examples.expired_browser) = authenticated a h /\
    localStorage (fire Examples.online
                    (TLogin (Some Examples.metamask) (Some Examples.alice))
                    Examples.expired_browser) !! "didsession" =
      Some (serialize h).
Proof.
  apply record_written_with_commit.
  intros Heq.
  assert (Hl : localStorage (fire Examples.online
                 (TLogin (Some Examples.metamask) (Some Examples.alice))
                 Examples.expired_browser) !! "didsession" =
               localStorage Examples.expired_browser !! "didsession")
    by (rewrite Heq; reflexivity).
  vm_compute in Hl. discriminate Hl.
Defined.

(** ** More invariants of the state record *)

(** X10.  In every reachable state the three signs of a logged-in user go
    together: [isAuthenticated] is true exactly when [user] is present and
    exactly when [didSession] is present, and the address of a present
    user is never empty. *)
Theorem authenticated_user_session_together w :
  reachable w ->
  (isAuthenticated (state w) = true <-> user (state w) <> None) /\
  (isAuthenticated (state w) = true <-> didSession (state w) <> None) /\
  (forall u, user (state w) = Some u -> address u <> "").
Proof.
  intros Hreach.
  destruct (reachable_shape w Hreach) as [Hs | [Hs | (a & h & Ha & Hs)]];
    rewrite Hs; cbn.
  - repeat split; congruence.
  - repeat split; congruence.
  - repeat split; try congruence.
    intros u [= <-]. apply truthy_nonempty, Ha.
Qed.

Lemma authenticated_user_session_together_witness :
  (isAuthenticated (state Examples.logged_in) = true <->
   user (state Examples.logged_in) <> None) /\
  (isAuthenticated (state Examples.logged_in) = true <->
   didSession (state Examples.logged_in) <> None) /\
  (forall u, user (state Examples.logged_in) = Some u -> address u <> "").
Proof.
  apply authenticated_user_session_together.
  exists {[ "didsession" := "stored-session" ]}, connected.
  apply rtc_once.
  exists Examples.online,
    (TLogin (Some Examples.metamask) (Some Examples.alice)).
  reflexivity.
Defined.

(** X11.  Every transition performs at most one [setState], and when it
    performs one, it is the last thing it does and the state it leaves:
    consumers never see an intermediate state. *)
Theorem one_commit_at_the_end E t w :
  calls is_commit (trace (command E t w)) ≤ 1 /\
  forall s,
    EvSetState s ∈ trace (command E t w) ->
    last (trace (command E t w)) = Some (EvSetState s) /\
    state (fire E t w) = s.
Proof.
  assert (Hlogin : forall provider addr w0,
    let r := loginWithCeramic E provider addr w0 in
    calls is_commit (trace r) ≤ 1 /\
    forall s, EvSetState s ∈ trace r ->
      last (trace r) = Some (EvSetState s) /\ state (final r) = s).
  { intros provider addr w0 r. subst r.
    run_cases;
      (split; [vm_compute; lia
              | intros st Hin; split_commits Hin; split; reflexivity]). }
  unfold fire. destruct t as [provider addr | | c provider addr];
    cbn [command].
  - apply Hlogin.
  - rewrite logout_run. destruct (nextAuthSignOut E) as [e | u];
      cbn [trace final];
      (split; [vm_compute; lia
              | intros st Hin; split_commits Hin; split; reflexivity]).
  - unfold statusEffect, detach.
    destruct c; cbn [status with_status trace final].
    + split; [vm_compute; lia | intros st Hin; split_commits Hin].
    + apply (Hlogin provider addr (with_status connected w)).
    + split; [vm_compute; lia | intros st Hin; split_commits Hin].
Qed.

(** X12.  [DIDSession.authorize] is only ever called for the provider and
    the non-empty address of the login, with [resources = ["ceramic://*"]],
    the domain [protocol//host], and a nonce the backend has just
    returned in the same run. *)
Theorem authorize_only_with_fresh_nonce E provider addr w ap opts res :
  EvAuthorize ap opts res ∈ trace (loginWithCeramic E provider addr w) ->
  exists p a n,
    provider = Some p /\
    addr = Some a /\
    a <> "" /\
    ap = {| ap_provider := p; ap_address := a |} /\
    opts =
      {| resources := ["ceramic://*"];
         nonce := n;
         domain := location_protocol E +:+ "//" +:+ location_host E |} /\
    getCsrfToken E = inr n /\
    EvGetCsrfToken (inr n) ∈ trace (loginWithCeramic E provider addr w) /\
    res = DIDSession_authorize E ap opts.
Proof.
  run_cases_eqn; intros Hin;
    repeat (apply elem_of_cons in Hin as [Hin | Hin];
            [try discriminate Hin; injection Hin as -> -> -> |]);
    try (apply elem_of_nil in Hin; destruct Hin);
    eexists _, _, _;
    (split; [reflexivity |]); (split; [reflexivity |]);
    (split; [apply truthy_nonempty; assumption |]);
    (split; [reflexivity |]); (split; [reflexivity |]);
    (split; [first [reflexivity | assumption] |]);
    (split; [| first [reflexivity | symmetry; assumption]]);
    repeat first [apply list_elem_of_here | apply list_elem_of_further].
Qed.

Lemma authorize_only_with_fresh_nonce_witness :
  exists p a n,
    Some Examples.metamask = Some p /\
    Some Examples.alice = Some a /\
    a <> "" /\
    {| ap_provider := Examples.metamask; ap_address := "0xABC" |} =
      {| ap_provider := p; ap_address := a |} /\
    challenge Examples.user_rejects "csrf-1" =
      {| resources := ["ceramic://*"];
         nonce := n;
         domain := "https:" +:+ "//" +:+ "app.sigle.io" |} /\
    getCsrfToken Examples.user_rejects = inr n /\
    EvGetCsrfToken (inr n)
      ∈ trace (loginWithCeramic Examples.user_rejects
                 (Some Examples.metamask) (Some Examples.alice)
                 Examples.expired_browser) /\
    inl (Error "User rejected request") =
      DIDSession_authorize Examples.user_rejects
        {| ap_provider := Examples.metamask; ap_address := "0xABC" |}
        (challenge Examples.user_rejects "csrf-1").
Proof.
  apply (authorize_only_with_fresh_nonce Examples.user_rejects
           (Some Examples.metamask) (Some Examples.alice)
           Examples.expired_browser).
  vm_compute. do 3 apply list_elem_of_further. apply list_elem_of_here.
Defined.

(** ** Edge cases of the stored record *)

(** X13.  A stored handle whose [hasSession] is false is reused as it is,
    expired or not: the login asks for no nonce and no authorization,
    writes nothing, and commits that handle. *)
Theorem session_without_hasSession_is_reused E p a str h w :
  truthy a = true ->
  localStorage w !! "didsession" = Some str ->
  truthy str = true ->
  DIDSession_fromSession E str = inr h ->
  hasSession h = false ->
  let r := loginWithCeramic E (Some p) (Some a) w in
  outcome r = inr () /\
  calls is_getNonce (trace r) = 0 /\
  calls is_authorize (trace r) = 0 /\
  localStorage (final r) = localStorage w /\
  state (final r) = authenticated a h.
Proof.
  intros Ha Hls Hstr Hparse Hhas r. subst r.
  rewrite (loginWithCeramic_stored_run E p a str h w Ha Hls Hstr Hparse)
    by (rewrite Hhas; reflexivity).
  repeat split.
Qed.

Lemma session_without_hasSession_is_reused_witness :
  let r := loginWithCeramic Edge.library (Some Examples.metamask)
             (Some Examples.alice) Edge.hollow_browser in
  isExpired Edge.hollowSession = true /\
  calls is_authorize (trace r) = 0 /\
  state (final r) = authenticated "0xABC" Edge.hollowSession.
Proof.
  pose proof (session_without_hasSession_is_reused Edge.library
    Examples.metamask Examples.alice "hollow-session" Edge.hollowSession
    Edge.hollow_browser eq_refl eq_refl eq_refl eq_refl eq_refl)
    as (_ & _ & Hauth & _ & Hstate).
  split; [reflexivity |]. split; [exact Hauth | exact Hstate].
Defined.

(** X14.  An empty string stored under ["didsession"] counts as no record:
    it is never handed to [DIDSession.fromSession], the nonce is fetched,
    and a login that resolves has overwritten it with the serialization of
    the handle it commits. *)
Theorem empty_record_is_no_record E p a w :
  truthy a = true ->
  localStorage w !! "didsession" = Some "" ->
  let r := loginWithCeramic E (Some p) (Some a) w in
  calls is_fromSession (trace r) = 0 /\
  calls is_getNonce (trace r) = 1 /\
  (outcome r = inr () ->
   exists h,
     state (final r) = authenticated a h /\
     localStorage (final r) =
       <["didsession" := serialize h]> (localStorage w)).
Proof.
  intros Ha Hls r. subst r. unfold_run. rewrite Ha, Hls.
  cbn [truthy String.eqb negb trace final outcome app].
  repeat (next_answer; cbn [trace final outcome app]);
    (split; [reflexivity |]); (split; [reflexivity |]);
    intros Hout; first [discriminate Hout | eexists; split; reflexivity].
Qed.

Lemma empty_record_is_no_record_witness :
  let r := loginWithCeramic Edge.library (Some Examples.metamask)
             (Some Examples.alice) Edge.blank_browser in
  calls is_fromSession (trace r) = 0 /\
  calls is_getNonce (trace r) = 1 /\
  localStorage (final r) !! "didsession" = Some "fresh-session".
Proof.
  pose proof (empty_record_is_no_record Edge.library Examples.metamask
    Examples.alice Edge.blank_browser eq_refl eq_refl)
    as (Hparse & Hnonce & _).
  split; [exact Hparse |]. split; [exact Hnonce | reflexivity].
Defined.


Lemma logout_signOut_rejects_witness :
  logout Examples.backend_down Examples.logged_in =
    mkRun [EvWagmiDisconnect; EvSignOut (inl (Error "Failed to fetch"))]
      (with_status disconnected Examples.logged_in)
      (inl (Error "Failed to fetch")).
Proof. apply logout_signOut_rejects. reflexivity. Defined.

(** ** The legacy provider *)
Module LegacyFacts.

Import Legacy.

Ltac unfold_legacy :=
  cbv beta iota zeta delta
    [handleAuthSignIn mountEffect handleSetUsername handleLogout
     userSession_loadUserData fetch_json localStorage_getItem
     localStorage_removeItem userSession_handlePendingSignIn
     userSession_signUserOut console_error toast_error setState
     read_mainnet first_name try_catch detach throw truthy_opt
     resolved_username mbind M_bind mret M_ret
     username stxAddress rest mainnet names with_username].

Ltac legacy_step :=
  match goal with
  | |- context [match ?x with _ => _ end] =>
      lazymatch x with
      | context [match _ with _ => _ end] => fail
      | _ => destruct x eqn:?
      end
  end.

Ltac legacy_cases :=
  repeat (legacy_step; cbn [trace final outcome app]).

(** X18.  Once the session library hands out the user data and the data
    has an [stxAddress], [handleAuthSignIn] always resolves, whatever the
    names API answers (a network error, a body without [names], an empty
    list) and whatever is stored: it leaves [loggingIn = false], the user
    data with at most its [username] changed, and [isLegacy] true exactly
    when the user has no mainnet address. *)
Theorem handleAuthSignIn_settles E ud sa w :
  loadUserData E = inr ud ->
  stxAddress ud = Some sa ->
  let r := handleAuthSignIn E w in
  outcome r = inr () /\
  loggingIn (state (final r)) = false /\
  isLegacy (state (final r)) = Some (negb (defined (mainnet sa))) /\
  exists name, user (state (final r)) = Some (with_username name ud).
Proof.
  intros Hload Hsa r. subst r.
  destruct ud as [un sx rs], sa as [mn]. cbn in Hsa. subst sx.
  unfold_legacy. rewrite Hload. cbn [trace final outcome app].
  legacy_cases; repeat split; eexists; reflexivity.
Qed.

Lemma handleAuthSignIn_settles_witness :
  let r := handleAuthSignIn api_down (mount ∅) in
  outcome r = inr () /\
  loggingIn (state (final r)) = false /\
  isLegacy (state (final r)) = Some false /\
  exists name, user (state (final r)) = Some (with_username name carol).
Proof.
  apply (handleAuthSignIn_settles api_down carol
           {| mainnet := Some "SP3CAROL" |} (mount ∅));
    reflexivity.
Defined.

(** X19.  The name stored in the browser wins: when a non-empty name is
    stored under [sigle-username-<address>], it becomes the user's
    [username], whatever the wallet or the API says; otherwise the
    username is the wallet's, or else the first name the API returned, or
    else none. *)
Theorem stored_username_wins E ud sa w :
  loadUserData E = inr ud ->
  stxAddress ud = Some sa ->
  let stored := localStorage w !! username_key (mainnet sa) in
  user (state (final (handleAuthSignIn E w))) =
    Some (with_username
            (if truthy_opt stored then stored
             else resolved_username E ud (mainnet sa))
            ud).
Proof.
  intros Hload Hsa stored. subst stored.
  destruct ud as [un sx rs], sa as [mn]. cbn in Hsa. subst sx.
  unfold_legacy. rewrite Hload. cbn [trace final outcome app].
  legacy_cases; try reflexivity;
    match goal with
    | H : bool_decide _ = true |- _ =>
        apply bool_decide_eq_true in H; simplify_eq; reflexivity
    end.
Qed.

Lemma stored_username_wins_witness :
  user (state (final (handleAuthSignIn api_up
                        (mount {[ "sigle-username-SP3CAROL" := "carol.id" ]}))))
  = Some (with_username (Some "carol.id") carol).
Proof.
  exact (stored_username_wins api_up carol {| mainnet := Some "SP3CAROL" |}
           (mount {[ "sigle-username-SP3CAROL" := "carol.id" ]})
           eq_refl eq_refl).
Defined.

(** X20.  The stored name is removed exactly when it has become redundant:
    [handleAuthSignIn] deletes [sigle-username-<address>] when the stored
    non-empty name equals the username the wallet or the API gave, and
    otherwise leaves [localStorage] as it was. *)
Theorem stored_username_cleanup E ud sa w :
  loadUserData E = inr ud ->
  stxAddress ud = Some sa ->
  let key := username_key (mainnet sa) in
  let stored := localStorage w !! key in
  localStorage (final (handleAuthSignIn E w)) =
    if truthy_opt stored
       && bool_decide (stored = resolved_username E ud (mainnet sa))
    then delete key (localStorage w)
    else localStorage w.
Proof.
  intros Hload Hsa key stored. subst key stored.
  destruct ud as [un sx rs], sa as [mn]. cbn in Hsa. subst sx.
  unfold_legacy. rewrite Hload. cbn [trace final outcome app].
  legacy_cases;
    cbn [andb localStorage with_localStorage with_state] in *;
    first [reflexivity | congruence].
Qed.

Lemma stored_username_cleanup_witness :
  localStorage
    (final (handleAuthSignIn api_up
              (mount {[ "sigle-username-SP3CAROL" := "carol.btc" ]})))
  = delete "sigle-username-SP3CAROL"
      {[ "sigle-username-SP3CAROL" := "carol.btc" ]}.
Proof.
  exact (stored_username_cleanup api_up carol
           {| mainnet := Some "SP3CAROL" |}
           (mount {[ "sigle-username-SP3CAROL" := "carol.btc" ]})
           eq_refl eq_refl).
Defined.

(** X21.  The names API is asked only when it is needed: a run of
    [handleAuthSignIn] fetches at most once, and only for a user whose
    wallet gave no username and who has a non-empty mainnet address, at
    the address's own URL. *)
Theorem names_lookup_only_when_needed E w url res :
  EvFetch url res ∈ trace (handleAuthSignIn E w) ->
  calls is_fetch (trace (handleAuthSignIn E w)) = 1 /\
  exists ud sa a,
    loadUserData E = inr ud /\
    username ud = None /\
    stxAddress ud = Some sa /\
    mainnet sa = Some a /\
    a <> "" /\
    url = "https://stacks-node-api.stacks.co/v1/addresses/stacks/" +:+ a.
Proof.
  unfold_legacy. legacy_cases; intros Hin;
    repeat (apply elem_of_cons in Hin as [Hin | Hin];
            [try discriminate Hin; injection Hin as -> -> |]);
    try (apply elem_of_nil in Hin; destruct Hin);
    (split; [reflexivity |]);
    eexists _, _, _; repeat split;
    first [reflexivity | apply truthy_nonempty; assumption].
Qed.

Lemma names_lookup_only_when_needed_witness :
  calls is_fetch (trace (handleAuthSignIn api_up (mount ∅))) = 1.
Proof.
  apply (names_lookup_only_when_needed api_up (mount ∅)
           "https://stacks-node-api.stacks.co/v1/addresses/stacks/SP3CAROL"
           (inr {| names := Some ["carol.btc"] |})).
  vm_compute. apply list_elem_of_further, list_elem_of_here.
Defined.

(** X25.  [handleAuthSignIn] rejects only when the session library fails
    to load the user data, or when the data has no [stxAddress]; it then
    rejects before doing anything else: no request to the names API, no
    state committed, the world as it was. *)
Theorem handleAuthSignIn_rejected E w e :
  outcome (handleAuthSignIn E w) = inl e ->
  final (handleAuthSignIn E w) = w /\
  trace (handleAuthSignIn E w) = [EvLoadUserData (loadUserData E)] /\
  (loadUserData E = inl e \/
   exists ud, loadUserData E = inr ud /\ stxAddress ud = None).
Proof.
  unfold_legacy. legacy_cases; intros Hout; try discriminate Hout;
    injection Hout as <-;
    (split; [reflexivity |]); (split; [reflexivity |]);
    first [left; reflexivity | right; eexists; split; reflexivity].
Qed.

Lemma handleAuthSignIn_rejected_witness :
  final (handleAuthSignIn signed_out (mount ∅)) = mount ∅.
Proof.
  apply (handleAuthSignIn_rejected signed_out (mount ∅)
           (Error "No user data found")).
  reflexivity.
Defined.



(** X23.  With a session at mount, a failure to load the user data (the
    session library throws, or the data has no [stxAddress]) is silent:
    the mount effect does not reject, shows no toast, logs nothing, and
    leaves the state as it was, so a freshly mounted provider stays at
    [loggingIn = true]. *)
Theorem mountEffect_signed_in_failure_is_silent E w :
  isUserSignedIn E = true ->
  (exists e, loadUserData E = inl e) \/
  (exists ud, loadUserData E = inr ud /\ stxAddress ud = None) ->
  let r := mountEffect E w in
  outcome r = inr () /\
  trace r = [EvLoadUserData (loadUserData E)] /\
  final r = w.
Proof.
  intros Hyes [(e & Hload) | (ud & Hload & Hsx)] r; subst r.
  - unfold_legacy. rewrite Hyes, Hload. repeat split.
  - destruct ud as [un sx rs]. cbn in Hsx. subst sx.
    unfold_legacy. rewrite Hyes, Hload. repeat split.
Qed.

Lemma mountEffect_signed_in_failure_is_silent_witness :
  let E :=
    {| isUserSignedIn := true;
       isSignInPending := false;
       handlePendingSignIn := inr ();
       loadUserData := inl (Error "No user data found");
       fetchNames := fun _ => inl (Error "Failed to fetch") |} in
  loggingIn (state (final (mountEffect E (mount ∅)))) = true.
Proof.
  intros E.
  destruct (mountEffect_signed_in_failure_is_silent E (mount ∅) eq_refl)
    as (_ & _ & ->).
  - left. eexists. reflexivity.
  - reflexivity.
Defined.

(** A transition leaves the state as it was or commits a state that is not
    loading. *)
Lemma fire_loggingIn E t w :
  state (fire E t w) = state w \/
  loggingIn (state (fire E t w)) = false.
Proof.
  unfold fire. destruct t as [| | name |]; cbn [command];
    unfold_legacy; legacy_cases;
    first [left; reflexivity | right; reflexivity | left; assumption].
Qed.

(** X24.  In every state the legacy provider can reach, [loggingIn] is
    true only in the initial state, and a user is present only when
    [loggingIn] is false. *)
Theorem legacy_loading_invariant w :
  reachable w ->
  (loggingIn (state w) = true -> state w = initialState) /\
  (user (state w) <> None -> loggingIn (state w) = false).
Proof.
  intros (ls & Hreach).
  assert (Hinv : state w = initialState \/ loggingIn (state w) = false).
  { apply (rtc_ind_r (R := step)
             (fun w' => state w' = initialState \/
                        loggingIn (state w') = false)
             (mount ls)); [| | exact Hreach].
    - left. reflexivity.
    - intros w1 w2 _ (E & t & ->) IH.
      destruct (fire_loggingIn E t w1) as [Hsame | Hdone].
      + rewrite Hsame. exact IH.
      + right. exact Hdone. }
  destruct Hinv as [Hinit | Hdone].
  - rewrite Hinit. split; [reflexivity | intros Huser; contradiction].
  - rewrite Hdone. split; [discriminate | reflexivity].
Qed.

Lemma legacy_loading_invariant_witness :
  user (state (fire api_up TMount (mount ∅))) <> None /\
  loggingIn (state (fire api_up TMount (mount ∅))) = false.
Proof.
  split; [discriminate |].
  apply (legacy_loading_invariant (fire api_up TMount (mount ∅))).
  - exists ∅. apply rtc_once. exists api_up, TMount. reflexivity.
  - discriminate.
Defined.

End LegacyFacts.

(** ** The error handler of the API server *)
Module ServerFacts.

Import Server.

(** X26.  The error handler answers every error with exactly one reply.
    Rate-limit errors (status 429) and schema validation errors are sent
    to the client as they are (with status 429, respectively 400) and are
    never reported to Sentry nor logged; every other error is reported and
    logged exactly once. *)
Theorem errorHandler_replies_once sentryId e request statusCode :
  let effects := errorHandler sentryId e request statusCode in
  count is_send effects = 1 /\
  (statusCode = 429 ->
   effects = [ReplySend (TheError e)] /\
   final_status statusCode effects = 429) /\
  (statusCode <> 429 -> validation e = true ->
   sent effects = [TheError e] /\
   final_status statusCode effects = 400 /\
   count is_report effects = 0) /\
  (statusCode <> 429 -> validation e = false ->
   CaptureException e ∈ effects /\
   ConsoleError sentryId e ∈ effects /\
   count is_report effects = 2).
Proof.
  intros effects. subst effects. unfold errorHandler.
  destruct (Nat.eqb_spec statusCode 429) as [-> | Hne].
  - repeat split; intros; congruence.
  - destruct (validation e) eqn:Hval.
    + repeat split; intros; congruence.
    + destruct (req_address request) as [a |];
        [destruct (truthy a) |];
        (destruct (headers request !! "content-type") as [ct |];
         [destruct (body request) as [b |];
          [destruct (String.eqb ct "application/json" && truthy b) |] |]);
        cbn [app];
        (split; [reflexivity |]); (split; [intros; congruence |]);
        (split; [intros; congruence |]); intros _ _;
        (split; [| split; [| reflexivity]]);
        repeat first [apply list_elem_of_here | apply list_elem_of_further].
Qed.

Lemma errorHandler_replies_once_witness :
  let e := {| err_message := "relation users does not exist";
              validation := false |} in
  let request :=
    {| url := "/api/users/me";
       headers := {[ "content-type" := "application/json" ]};
       req_address := Some "SP3CAROL";
       body := Some "{}" |} in
  count is_send (errorHandler "sentry-1" e request 200) = 1 /\
  count is_report (errorHandler "sentry-1" e request 200) = 2.
Proof.
  intros e request.
  pose proof (errorHandler_replies_once "sentry-1" e request 200)
    as (Hsend & _ & _ & Hreport).
  split; [exact Hsend |].
  destruct Hreport as (_ & _ & Hcount); [discriminate | reflexivity |].
  exact Hcount.
Defined.

(** X27.  An unexpected error never reaches the client: whatever the error
    and the request, the reply has status 500 and the fixed body, whose
    only variable part is the id Sentry returned. *)
Theorem errorHandler_hides_internal_errors sentryId e request statusCode :
  statusCode <> 429 ->
  validation e = false ->
  let effects := errorHandler sentryId e request statusCode in
  final_status statusCode effects = 500 /\
  sent effects =
    [Body
       {| error := "Internal server error";
          message := "Something went wrong please try again after some time";
          errorId := sentryId |}].
Proof.
  intros Hne Hval effects. subst effects. unfold errorHandler.
  destruct (Nat.eqb_spec statusCode 429) as [Heq | _]; [contradiction |].
  rewrite Hval.
  destruct (req_address request) as [a |];
    [destruct (truthy a) |];
    (destruct (headers request !! "content-type") as [ct |];
     [destruct (body request) as [b |];
      [destruct (String.eqb ct "application/json" && truthy b) |] |]);
    split; reflexivity.
Qed.

Lemma errorHandler_hides_internal_errors_witness :
  sent (errorHandler "sentry-1"
          {| err_message := "password authentication failed";
             validation := false |}
          {| url := "/health"; headers := ∅; req_address := None;
             body := None |}
          200) =
    [Body
       {| error := "Internal server error";
          message := "Something went wrong please try again after some time";
          errorId := "sentry-1" |}].
Proof.
  apply errorHandler_hides_internal_errors; [discriminate | reflexivity].
Defined.

End ServerFacts.
